(** * SurveyResponder command line interface: a shallow embedding of [cli.py]

    The development follows [src/cli.py].  Python strings are lists of code
    points, the file system is a finite map from paths to nodes, and the
    body of [cli] is written in a small state-and-exception monad whose
    state is the part of the world the function can touch: the file system,
    standard output and standard error. *)

From Stdlib Require Import ZArith NArith Ascii String DecimalString SpecFloat.
From stdpp Require Import gmap list.

Local Open Scope Z_scope.

(** ** Python strings *)

(** A Python [str] is a sequence of Unicode code points. *)
Abbreviation pystr := (list N).

(** String literals of the source, read one code point per character. *)
Fixpoint lit (s : string) : pystr :=
  match s with
  | EmptyString => []
  | String a s' => N_of_ascii a :: lit s'
  end.

Definition NEWLINE : N := 10%N.
Definition COMMA : N := 44%N.
Definition SLASH : N := 47%N.

(** [str.isspace] on one code point: the white space table of CPython
    ([_PyUnicode_IsWhitespace]). *)
Definition py_isspace (c : N) : bool :=
  ((9 <=? c) && (c <=? 13) || (28 <=? c) && (c <=? 32)
   || (c =? 133) || (c =? 160) || (c =? 5760)
   || (8192 <=? c) && (c <=? 8202)
   || (c =? 8232) || (c =? 8233) || (c =? 8239) || (c =? 8287)
   || (c =? 12288))%N.

Fixpoint dropwhile {A} (p : A -> bool) (l : list A) : list A :=
  match l with
  | [] => []
  | x :: l' => if p x then dropwhile p l' else l
  end.

(** [s.lstrip()], [s.rstrip()] and [s.strip()] without argument. *)
Definition lstrip (s : pystr) : pystr := dropwhile py_isspace s.
Definition rstrip (s : pystr) : pystr :=
  reverse (dropwhile py_isspace (reverse s)).
Definition strip (s : pystr) : pystr := rstrip (lstrip s).

(** [s.rstrip(chars)] for a one-character [chars]. *)
Definition rstrip_char (c : N) (s : pystr) : pystr :=
  reverse (dropwhile (N.eqb c) (reverse s)).

(** [s.split(sep)] for a one-character separator: one piece more than
    there are separators, empty pieces kept. *)
Fixpoint split (sep : N) (s : pystr) : list pystr :=
  match s with
  | [] => [[]]
  | c :: s' =>
      if (c =? sep)%N then [] :: split sep s'
      else match split sep s' with
           | piece :: rest => (c :: piece) :: rest
           | [] => [[c]]
           end
  end.

(** Truth value of a string, and of an optional string or integer as
    [argparse] leaves them in the namespace ([None] when the flag is
    absent). *)
Definition truthy_str (s : pystr) : bool :=
  match s with [] => false | _ :: _ => true end.

Definition truthy_opt_str (o : option pystr) : bool :=
  match o with Some s => truthy_str s | None => false end.

Definition truthy_opt_int (o : option Z) : bool :=
  match o with Some i => negb (i =? 0) | None => false end.

(** [str(i)] for an integer, as an f-string formats it. *)
Definition str_int (i : Z) : pystr :=
  lit (NilZero.string_of_int (Z.to_int i)).

(** [os.path.dirname] of [posixpath]: everything up to and including the
    last slash, then trailing slashes removed unless the head is made of
    slashes only. *)
Definition dirname (p : pystr) : pystr :=
  let head := reverse (dropwhile (fun c => negb (c =? SLASH)%N) (reverse p)) in
  if truthy_str head && negb (forallb (N.eqb SLASH) head)
  then rstrip_char SLASH head
  else head.

(** [l.pop(i)]: negative indices count from the end; [None] stands for
    [IndexError]. *)
Definition py_pop {A} (l : list A) (i : Z) : option (A * list A) :=
  let n := Z.of_nat (length l) in
  let j := if i <? 0 then i + n else i in
  if (0 <=? j) && (j <? n)
  then x ← l !! Z.to_nat j; Some (x, delete (Z.to_nat j) l)
  else None.

(** [enumerate(l, start)]. *)
Fixpoint enumerate {A} (start : Z) (l : list A) : list (Z * A) :=
  match l with
  | [] => []
  | x :: l' => (start, x) :: enumerate (start + 1) l'
  end.

(** ** The world: file system and the two output streams *)

(** A path names a regular file with its text, or a directory.  Paths are
    compared as written (no normalisation, no links); the map holds the
    entries the process can see. *)
Inductive node :=
  | File (content : pystr)
  | Dir.

Record world := World {
  fs : gmap pystr node;
  stdout : pystr;
  stderr : pystr;
}.

(** What an [except] clause of [cli] can tell about an exception: the
    first of the clauses [FileNotFoundError], [ValueError],
    [ConnectionError], [Exception] that its class is an instance of
    ([BaseException] when none is, as for [KeyboardInterrupt]), and
    [str(e)]. *)
Inductive exc_class :=
  | FileNotFoundError
  | ValueError
  | ConnectionError
  | Exception
  | BaseException.

Record exn := Exn { exc_type : exc_class; exc_str : pystr }.

(** [IsADirectoryError] and [IndexError] are instances of [Exception] and
    of none of the three named classes. *)
Definition IsADirectoryError (msg : pystr) : exn := Exn Exception msg.
Definition IndexError (msg : pystr) : exn := Exn Exception msg.

(** A call returns, raises, or leaves through [sys.exit]. *)
Inductive result (A : Type) :=
  | Return (a : A)
  | Raise (e : exn)
  | SysExit (code : Z).
Arguments Return {A} a.
Arguments Raise {A} e.
Arguments SysExit {A} code.

Definition M (A : Type) : Type := world -> result A * world.

Definition ret {A} (a : A) : M A := fun w => (Return a, w).

Definition bind {A B} (m : M A) (k : A -> M B) : M B :=
  fun w =>
    match m w with
    | (Return a, w') => k a w'
    | (Raise e, w') => (Raise e, w')
    | (SysExit c, w') => (SysExit c, w')
    end.

Definition raise {A} (e : exn) : M A := fun w => (Raise e, w).
Definition sys_exit {A} (code : Z) : M A := fun w => (SysExit code, w).

Notation "x <- m ;; k" := (bind m (fun x => k))
  (at level 100, m at next level, right associativity).
Notation "m ;;; k" := (bind m (fun _ => k))
  (at level 100, right associativity).

(** [try: body except ...: handler] where the handler decides by the
    exception; [sys.exit] passes through. *)
Definition try_except {A} (body : M A) (handler : exn -> M A) : M A :=
  fun w =>
    match body w with
    | (Raise e, w') => handler e w'
    | r => r
    end.

(** [print(s)] and [print(s, file=sys.stderr)]. *)
Definition print (s : pystr) : M unit :=
  fun w => (Return tt, World (fs w) (stdout w ++ s ++ [NEWLINE]) (stderr w)).

Definition print_stderr (s : pystr) : M unit :=
  fun w => (Return tt, World (fs w) (stdout w) (stderr w ++ s ++ [NEWLINE])).

(** [os.path.exists]. *)
Definition path_exists (p : pystr) : M bool :=
  fun w => (Return (bool_decide (is_Some (fs w !! p))), w).

(** The directory a new file would be created in is there: the path has no
    directory part, or that part is a directory. *)
Definition parent_ok (m : gmap pystr node) (p : pystr) : bool :=
  match dirname p with
  | [] => true
  | d => match m !! d with Some Dir => true | _ => false end
  end.

(** [open(p, "a")]: the file is created empty when absent.  The text of
    an operating system error is not modelled; the path stands for it. *)
Definition open_append (p : pystr) : M unit :=
  fun w =>
    match fs w !! p with
    | Some (File _) => (Return tt, w)
    | Some Dir => (Raise (IsADirectoryError p), w)
    | None =>
        if truthy_str p && parent_ok (fs w) p
        then (Return tt, World (<[p := File []]> (fs w)) (stdout w) (stderr w))
        else (Raise (Exn FileNotFoundError p), w)
    end.

(** [open(p, "w")]: the file is created when absent and emptied when
    present. *)
Definition open_write (p : pystr) : M unit :=
  fun w =>
    match fs w !! p with
    | Some Dir => (Raise (IsADirectoryError p), w)
    | Some (File _) =>
        (Return tt, World (<[p := File []]> (fs w)) (stdout w) (stderr w))
    | None =>
        if truthy_str p && parent_ok (fs w) p
        then (Return tt, World (<[p := File []]> (fs w)) (stdout w) (stderr w))
        else (Raise (Exn FileNotFoundError p), w)
    end.

(** [f.write(data)] on a file opened at path [p] for appending or writing:
    the data goes to the end. *)
Definition f_write (p : pystr) (data : pystr) : M unit :=
  fun w =>
    match fs w !! p with
    | Some (File c) =>
        (Return tt, World (<[p := File (c ++ data)]> (fs w)) (stdout w) (stderr w))
    | _ => (Raise (Exn Exception p), w)
    end.

(** [for x in l: body(x)]. *)
Fixpoint for_each {A} (l : list A) (body : A -> M unit) : M unit :=
  match l with
  | [] => ret tt
  | x :: l' => body x ;;; for_each l' body
  end.

(** The lines of a text, each without its terminator, as iterating over a
    file yields them; a last line without terminator counts. *)
Fixpoint lines (s : pystr) : list pystr :=
  match s with
  | [] => []
  | c :: s' =>
      if (c =? NEWLINE)%N then [] :: lines s'
      else match lines s' with
           | line :: rest => (c :: line) :: rest
           | [] => [[c]]
           end
  end.

(** Modelled from the spec: [load_questions] is imported from the
    [SurveyResponder] package, which is not part of the sources at hand.
    The questions file is "an ordered sequence of newline-terminated text
    lines, each a question string", and line number = 1-based index; the
    function returns that sequence, one string per line, without the
    terminators.  Reading a directory or a missing path raises. *)
Definition load_questions (p : pystr) : M (list pystr) :=
  fun w =>
    match fs w !! p with
    | Some (File c) => (Return (lines c), w)
    | Some Dir => (Raise (IsADirectoryError p), w)
    | None => (Raise (Exn FileNotFoundError p), w)
    end.

(** ** Arguments, as [parser.parse_args()] returns them *)

(** The [questions] subcommand.  [--list], [--add] and [--delete] form a
    required, mutually exclusive group: exactly one of them was given. *)
Record questions_args := QuestionsArgs {
  arg_file : pystr;
  arg_list : bool;
  arg_add : option pystr;
  arg_delete : option Z;
}.

(** The [run] subcommand ([--temperature] has [type=float]: a binary64
    value, possibly infinite or not a number). *)
Record run_args := RunArgs {
  arg_questions : pystr;
  arg_persona : pystr;
  arg_model : pystr;
  arg_num_responses : Z;
  arg_temperature : spec_float;
  arg_response_options : option pystr;
  arg_output : pystr;
}.

Inductive args :=
  | NoCommand
  | CommandQuestions (a : questions_args)
  | CommandRun (a : run_args).

(** Namespaces for one flag of the group. *)
Definition questions_list (file : pystr) : questions_args :=
  QuestionsArgs file true None None.
Definition questions_add (file s : pystr) : questions_args :=
  QuestionsArgs file false (Some s) None.
Definition questions_delete (file : pystr) (i : Z) : questions_args :=
  QuestionsArgs file false None (Some i).

(** ** The delegate *)

(** Keyword arguments of the [SurveyResponder] constructor. *)
Record responder_config := ResponderConfig {
  questions_path : pystr;
  persona_path : pystr;
  model_name : pystr;
  response_options : option (list pystr);
  num_responses : Z;
  temperature : spec_float;
}.

(** The [SurveyResponder] class lives outside [cli.py]; [cli] is
    parametric in it.  Its constructor and its [run_write] method may
    read and change the world, return, raise or exit. *)
Record delegate := Delegate {
  responder : Type;
  SurveyResponder : responder_config -> M responder;
  run_write : responder -> pystr -> M unit;
}.

(** ** The [questions] subcommand (lines 48 to 84) *)

(** Lines 59 to 62. *)
Definition list_questions (file_path : pystr) : M unit :=
  questions <- load_questions file_path ;;
  for_each (enumerate 1 questions)
    (fun iq => print (str_int (fst iq) ++ lit ". " ++ snd iq)).

(** Lines 64 to 67. *)
Definition add_question (file_path add : pystr) : M unit :=
  open_append file_path ;;;
  f_write file_path (strip add ++ [NEWLINE]) ;;;
  print (lit "Added question: " ++ strip add).

(** Lines 69 to 79. *)
Definition delete_question (file_path : pystr) (delete : Z) : M unit :=
  questions <- load_questions file_path ;;
  let index := delete - 1 in
  (if (index <? 0) || (index >=? Z.of_nat (length questions)) then
     print_stderr (lit "Invalid line number: " ++ str_int delete) ;;;
     sys_exit 1
   else ret tt) ;;;
  match py_pop questions index with
  | None => raise (IndexError (lit "pop index out of range"))
  | Some (removed, questions) =>
      open_write file_path ;;;
      for_each questions (fun q => f_write file_path (q ++ [NEWLINE])) ;;;
      print (lit "Deleted question: " ++ removed)
  end.

(** Lines 81 to 83. *)
Definition no_action : M unit :=
  print_stderr (lit "No action specified. Use --list, --add, or --delete.") ;;;
  sys_exit 1.

Definition cli_questions (a : questions_args) : M unit :=
  let file_path := arg_file a in
  (found <- path_exists file_path ;;
   if negb found then
     if truthy_opt_str (arg_add a) then open_append file_path
     else
       print_stderr (lit "Questions file not found: " ++ file_path) ;;;
       sys_exit 1
   else ret tt) ;;;
  if arg_list a then list_questions file_path
  else if truthy_opt_str (arg_add a) then
    add_question file_path (default [] (arg_add a))
  else if truthy_opt_int (arg_delete a) then
    delete_question file_path (default 0 (arg_delete a))
  else no_action.

(** ** The [run] subcommand (lines 87 to 141) *)

(** Lines 89 to 96: the loop appends each non-empty stripped piece. *)
Definition parse_response_options (o : option pystr) : option (list pystr) :=
  if truthy_opt_str o then
    let split_options := split COMMA (default [] o) in
    Some (fold_left
            (fun response_options option =>
               let stripped := strip option in
               if truthy_str stripped then response_options ++ [stripped]
               else response_options)
            split_options [])
  else None.

(** The floats [0.0] and [2.0] in binary64. *)
Definition float_0 : spec_float := S754_zero false.
Definition float_2 : spec_float := S754_finite false 4503599627370496 (-51).

(** Line 113: [response_options is not None and len(response_options) <= 2]. *)
Definition too_few_options (response_options : option (list pystr)) : bool :=
  match response_options with
  | Some l => Z.of_nat (length l) <=? 2
  | None => false
  end.

(** Line 115: [0.0 <= args.temperature <= 2.0]. *)
Definition temperature_in_range (t : spec_float) : bool :=
  SFleb float_0 t && SFleb t float_2.

(** Lines 99 to 126, the body of the [try]. *)
Definition run_try (d : delegate) (a : run_args)
    (response_options : option (list pystr)) : M (responder d) :=
  (found <- path_exists (arg_questions a) ;;
   if negb found then
     raise (Exn FileNotFoundError
              (lit "Questions file not found: " ++ arg_questions a))
   else ret tt) ;;;
  (found <- path_exists (arg_persona a) ;;
   if negb found then
     raise (Exn FileNotFoundError
              (lit "Persona file not found: " ++ arg_persona a))
   else ret tt) ;;;
  let output_dir := dirname (arg_output a) in
  (if truthy_str output_dir then
     found <- path_exists output_dir ;;
     if negb found then
       raise (Exn FileNotFoundError
                (lit "Output directory does not exist: " ++ output_dir))
     else ret tt
   else ret tt) ;;;
  (if too_few_options response_options then
     raise (Exn ValueError (lit "You must provide at least 2 response options."))
   else ret tt) ;;;
  (if negb (temperature_in_range (arg_temperature a)) then
     raise (Exn ValueError (lit "Temperature must be between 0.0 and 2.0"))
   else ret tt) ;;;
  SurveyResponder d
    (ResponderConfig (arg_questions a) (arg_persona a) (arg_model a)
       response_options (arg_num_responses a) (arg_temperature a)).

(** Lines 128 to 139: the [except] clauses, tried in order.  An exception
    that is no [Exception] is not caught. *)
Definition run_except {A} (e : exn) : M A :=
  match exc_type e with
  | FileNotFoundError =>
      print_stderr (lit "File Error: " ++ exc_str e) ;;; sys_exit 1
  | ValueError =>
      print_stderr (lit "Input Error: " ++ exc_str e) ;;; sys_exit 1
  | ConnectionError =>
      print_stderr (lit "Connection Error: " ++ exc_str e) ;;; sys_exit 1
  | Exception =>
      print_stderr (lit "Unexpected Error: " ++ exc_str e) ;;; sys_exit 1
  | BaseException => raise e
  end.

Definition cli_run (d : delegate) (a : run_args) : M unit :=
  let response_options := parse_response_options (arg_response_options a) in
  responder <- try_except (run_try d a response_options) run_except ;;
  run_write d responder (arg_output a).

(** ** [cli] *)

Definition cli (d : delegate) (a : args) : M unit :=
  match a with
  | CommandQuestions a => cli_questions a
  | CommandRun a => cli_run d a
  | NoCommand => ret tt
  end.

(** Delegates for closed examples: one that does nothing, and one whose
    [run_write] loses the connection to the model server. *)
Definition quiet_delegate : delegate :=
  Delegate unit (fun _ => ret tt) (fun _ _ => ret tt).

Definition disconnected_delegate : delegate :=
  Delegate unit (fun _ => ret tt)
    (fun _ _ => raise (Exn ConnectionError (lit "Failed to connect to Ollama"))).

(** ** Specification-side definitions *)

(** [sep.join(pieces)] for a one-character separator. *)
Fixpoint join (sep : N) (pieces : list pystr) : pystr :=
  match pieces with
  | [] => []
  | [piece] => piece
  | piece :: rest => piece ++ sep :: join sep rest
  end.

(** The category printed in front of a handled exception. *)
Definition category (c : exc_class) : pystr :=
  match c with
  | FileNotFoundError => lit "File Error"
  | ValueError => lit "Input Error"
  | ConnectionError => lit "Connection Error"
  | _ => lit "Unexpected Error"
  end.

(** The world after one more line on standard error. *)
Definition with_stderr_line (w : world) (line : pystr) : world :=
  World (fs w) (stdout w) (stderr w ++ line ++ [NEWLINE]).

(** Response options as the spec words them: split on commas, trim each
    token, drop the tokens that became empty. *)
Definition trimmed_nonempty_tokens (s : pystr) : list pystr :=
  filter (fun t => t <> []) (strip <$> split COMMA s).

(** The three path checks of the [run] subcommand hold in a world. *)
Definition paths_ok (a : run_args) (w : world) : bool :=
  bool_decide (is_Some (fs w !! arg_questions a))
  && bool_decide (is_Some (fs w !! arg_persona a))
  && (negb (truthy_str (dirname (arg_output a)))
      || bool_decide (is_Some (fs w !! dirname (arg_output a)))).

(** The first check of lines 100 to 116 that fails, with the exception it
    raises. *)
Definition first_failure (a : run_args)
    (response_options : option (list pystr)) (w : world) : option exn :=
  if negb (bool_decide (is_Some (fs w !! arg_questions a))) then
    Some (Exn FileNotFoundError
            (lit "Questions file not found: " ++ arg_questions a))
  else if negb (bool_decide (is_Some (fs w !! arg_persona a))) then
    Some (Exn FileNotFoundError
            (lit "Persona file not found: " ++ arg_persona a))
  else if truthy_str (dirname (arg_output a))
          && negb (bool_decide (is_Some (fs w !! dirname (arg_output a)))) then
    Some (Exn FileNotFoundError
            (lit "Output directory does not exist: " ++ dirname (arg_output a)))
  else if too_few_options response_options then
    Some (Exn ValueError (lit "You must provide at least 2 response options."))
  else if negb (temperature_in_range (arg_temperature a)) then
    Some (Exn ValueError (lit "Temperature must be between 0.0 and 2.0"))
  else None.

(** The configuration handed to the constructor. *)
Definition config_of (a : run_args)
    (response_options : option (list pystr)) : responder_config :=
  ResponderConfig (arg_questions a) (arg_persona a) (arg_model a)
    response_options (arg_num_responses a) (arg_temperature a).

(** What [--list] prints for a list of questions numbered from [start]. *)
Fixpoint listing (start : Z) (questions : list pystr) : pystr :=
  match questions with
  | [] => []
  | q :: rest =>
      str_int start ++ lit ". " ++ q ++ [NEWLINE] ++ listing (start + 1) rest
  end.

(** The text of a questions file holding the given lines. *)
Definition unlines (questions : list pystr) : pystr :=
  concat ((fun q => q ++ [NEWLINE]) <$> questions).

(** A text made of newline-terminated lines: empty, or ending in a
    newline. *)
Definition terminated (c : pystr) : Prop :=
  c = [] \/ last c = Some NEWLINE.

(** ** Further specification-side definitions *)

(** The lines [--list] prints for questions numbered from [start]. *)
Definition numbered (start : Z) (questions : list pystr) : list pystr :=
  (fun iq => str_int (fst iq) ++ lit ". " ++ snd iq) <$> enumerate start questions.

(** A string with no white space at either end. *)
Definition trimmed (x : pystr) : Prop :=
  (forall c, head x = Some c -> py_isspace c = false)
  /\ (forall c, last x = Some c -> py_isspace c = false).

(** How often a character occurs in a string. *)
Definition occurrences (c : N) (s : pystr) : nat :=
  length (filter (fun x => x = c) s).

(** Every path other than [file] holds in [w'] what it held in [w]. *)
Definition untouched_elsewhere (file : pystr) (w w' : world) : Prop :=
  forall p, p <> file -> fs w' !! p = fs w !! p.

(** A computation that changes the file system at [file] only. *)
Definition frames (file : pystr) {A} (m : M A) : Prop :=
  forall w, untouched_elsewhere file w (snd (m w)).

(** A computation that never leaves through [sys.exit]. *)
Definition never_exits {A} (m : M A) : Prop :=
  forall w code w', m w <> (SysExit code, w').

(** Delegates whose constructor is interrupted from the keyboard, and
    whose constructor calls [sys.exit(3)]. *)
Definition interrupted_delegate : delegate :=
  Delegate unit (fun _ => raise (Exn BaseException (lit "KeyboardInterrupt")))
    (fun _ _ => ret tt).

Definition exiting_delegate : delegate :=
  Delegate unit (fun _ => sys_exit 3) (fun _ _ => ret tt).

(** A delegate whose [run_write] reports on standard output where it
    writes. *)
Definition reporting_delegate : delegate :=
  Delegate unit (fun _ => ret tt)
    (fun _ out => print (lit "Saved results to " ++ out)).

(** A [run] invocation in which every check after the paths would fail
    too. *)
Definition run_all_wrong (questions persona : pystr) : run_args :=
  RunArgs questions persona (lit "m") 1 S754_nan (Some (lit "A"))
    (lit "no/such/out.csv").

(** ** Sample inputs *)

(** The floats [1.0], [3.0] and [-0.5] in binary64. *)
Definition float_1 : spec_float := S754_finite false 4503599627370496 (-52).
Definition float_3 : spec_float := S754_finite false 6755399441055744 (-51).
Definition float_minus_half : spec_float :=
  S754_finite true 4503599627370496 (-53).

(** [run] with every flag left at its default, and variations of it. *)
Definition default_run_args : run_args :=
  RunArgs (lit "questions.txt") (lit "persona.json") (lit "llama3.1:latest")
    10 float_1 None (lit "results.csv").

Definition run_with_options (o : pystr) : run_args :=
  RunArgs (lit "questions.txt") (lit "persona.json") (lit "llama3.1:latest")
    10 float_1 (Some o) (lit "results.csv").

Definition run_with_temperature (t : spec_float) : run_args :=
  RunArgs (lit "questions.txt") (lit "persona.json") (lit "llama3.1:latest")
    10 t None (lit "results.csv").

Definition run_with_output (out : pystr) : run_args :=
  RunArgs (lit "questions.txt") (lit "persona.json") (lit "llama3.1:latest")
    10 float_1 None out.

(** A working directory with a questions file of two lines and a persona
    file, and an empty one. *)
Definition two_questions : pystr :=
  lit "Q1" ++ [NEWLINE] ++ lit "Q2" ++ [NEWLINE].

Definition two_questions_lines : list pystr := lines two_questions.

Definition sample_world : world :=
  World {[ lit "questions.txt" := File two_questions;
           lit "persona.json" := File (lit "{}") ]} [] [].

Definition empty_world : world := World ∅ [] [].

(** ** Examples *)

Example split_abc :
  split COMMA (lit "A,B,C") = [lit "A"; lit "B"; lit "C"].
Proof. reflexivity. Qed.

Example strip_ex : strip (lit "  a b  ") = lit "a b".
Proof. reflexivity. Qed.

Example dirname_ex :
  dirname (lit "out/dir/results.csv") = lit "out/dir"
  /\ dirname (lit "results.csv") = []
  /\ dirname (lit "/results.csv") = lit "/"
  /\ dirname (lit "a//b") = lit "a".
Proof. repeat split; reflexivity. Qed.

Example str_int_ex : str_int 12 = lit "12" /\ str_int (-3) = lit "-3" /\ str_int 0 = lit "0".
Proof. repeat split; reflexivity. Qed.

Example lines_ex :
  lines (lit "a" ++ [NEWLINE] ++ [NEWLINE] ++ lit "b c" ++ [NEWLINE] ++ lit "d")
  = [lit "a"; []; lit "b c"; lit "d"].
Proof. reflexivity. Qed.

(** The sample floats are well-formed binary64 values, and compare as
    the numbers they stand for. *)
Example floats_valid :
  Forall (fun x => valid_binary 53 1024 x = true)
    [float_0; float_1; float_2; float_3; float_minus_half].
Proof. repeat constructor. Qed.

Example floats_compare :
  SFltb float_minus_half float_0 = true
  /\ SFltb float_1 float_2 = true
  /\ SFltb float_2 float_3 = true
  /\ SFleb float_0 (S754_zero true) = true
  /\ temperature_in_range S754_nan = false.
Proof. repeat split. Qed.

Example parse_ex :
  parse_response_options (Some (lit "A,B,C")) = Some [lit "A"; lit "B"; lit "C"]
  /\ parse_response_options (Some (lit ",")) = Some []
  /\ parse_response_options (Some []) = None
  /\ parse_response_options None = None.
Proof. repeat split. Qed.

Example list_ex :
  cli quiet_delegate (CommandQuestions (questions_list (lit "questions.txt")))
    sample_world
  = (Return tt,
     World (fs sample_world)
       (lit "1. Q1" ++ [NEWLINE] ++ lit "2. Q2" ++ [NEWLINE]) []).
Proof. vm_compute. reflexivity. Qed.

Example delete_negative_ex :
  cli quiet_delegate
    (CommandQuestions (questions_delete (lit "questions.txt") (-1)))
    sample_world
  = (SysExit 1,
     World (fs sample_world) [] (lit "Invalid line number: -1" ++ [NEWLINE])).
Proof. vm_compute. reflexivity. Qed.

Example run_ok_ex :
  cli quiet_delegate (CommandRun default_run_args) sample_world
  = (Return tt, sample_world).
Proof. vm_compute. reflexivity. Qed.

(** ** The [run] subcommand: validation *)

(** The body of the [try] raises the first failing check without touching
    the world, and otherwise is the constructor call. *)
Lemma run_try_eq d a ro w :
  run_try d a ro w =
  match first_failure a ro w with
  | Some e => (Raise e, w)
  | None => SurveyResponder d (config_of a ro) w
  end.
Proof.
  unfold run_try, first_failure, config_of, bind, path_exists, raise, ret.
  destruct (bool_decide (is_Some (fs w !! arg_questions a))); simpl; [|done].
  destruct (bool_decide (is_Some (fs w !! arg_persona a))); simpl; [|done].
  destruct (truthy_str (dirname (arg_output a))); simpl.
  - destruct (bool_decide (is_Some (fs w !! dirname (arg_output a)))); simpl; [|done].
    destruct (too_few_options ro); simpl; [done|].
    by destruct (temperature_in_range (arg_temperature a)).
  - destruct (too_few_options ro); simpl; [done|].
    by destruct (temperature_in_range (arg_temperature a)).
Qed.

(** A handled exception becomes one categorised line and exit status 1. *)
Lemma run_except_handled {A} e w :
  exc_type e <> BaseException ->
  @run_except A e w =
  (SysExit 1, with_stderr_line w (category (exc_type e) ++ lit ": " ++ exc_str e)).
Proof.
  unfold run_except, with_stderr_line, bind, print_stderr, sys_exit.
  destruct e as [[] msg]; simpl; intros H; try done.
Qed.

(** When a check fails, [cli] prints its line and exits; the delegate plays
    no part in the outcome. *)
Lemma cli_run_failure d a w e :
  first_failure a (parse_response_options (arg_response_options a)) w = Some e ->
  cli d (CommandRun a) w =
  (SysExit 1, with_stderr_line w (category (exc_type e) ++ lit ": " ++ exc_str e)).
Proof.
  intros H. simpl. unfold cli_run, bind, try_except.
  rewrite run_try_eq, H.
  rewrite run_except_handled; [done|].
  unfold first_failure in H.
  repeat match type of H with
         | (if ?b then _ else _) = _ => destruct b
         end; by simplify_eq.
Qed.

(** When every check passes, [cli] is the constructor call under the
    [except] clauses followed by [run_write] outside of them. *)
Lemma cli_run_valid d a w :
  first_failure a (parse_response_options (arg_response_options a)) w = None ->
  cli d (CommandRun a) w =
  (responder <- try_except
       (SurveyResponder d
          (config_of a (parse_response_options (arg_response_options a))))
       run_except ;;
   run_write d responder (arg_output a)) w.
Proof.
  intros H. simpl. unfold cli_run, bind, try_except.
  by rewrite run_try_eq, H.
Qed.

(** ** Floats: comparison *)

Lemma SFcompare_antisym x y :
  SFcompare y x = CompOpp <$> SFcompare x y.
Proof.
  destruct x as [sx|sx| |sx mx ex], y as [sy|sy| |sy my ey]; simpl; try done;
    try (by destruct sx); try (by destruct sy); try (by destruct sx, sy).
  f_equal. destruct sx, sy; try done.
  - rewrite (Z.compare_antisym ex ey).
    destruct (ex ?= ey); simpl; try done.
    pose proof (Pos.compare_cont_antisym mx my Eq) as E.
    simpl in E. by rewrite E.
  - rewrite (Z.compare_antisym ex ey).
    destruct (ex ?= ey); simpl; try done.
    pose proof (Pos.compare_cont_antisym mx my Eq) as E.
    simpl in E. by rewrite E.
Qed.

Lemma SFltb_not_SFleb x y : SFltb x y = true -> SFleb y x = false.
Proof.
  unfold SFltb, SFleb. rewrite (SFcompare_antisym x y).
  by destruct (SFcompare x y) as [[]|].
Qed.

Lemma temperature_out_of_range t :
  SFltb t float_0 = true \/ SFltb float_2 t = true ->
  temperature_in_range t = false.
Proof.
  unfold temperature_in_range.
  intros [H|H]; apply SFltb_not_SFleb in H; rewrite H; [done|].
  by rewrite andb_false_r.
Qed.

(** ** Strings: [strip] and [split] *)

Lemma dropwhile_decompose {A} (p : A -> bool) l :
  exists pre, l = pre ++ dropwhile p l /\ forallb p pre = true.
Proof.
  induction l as [|x l [pre [E F]]]; simpl.
  - by exists [].
  - destruct (p x) eqn:Hx.
    + exists (x :: pre). simpl. rewrite Hx, F. split; [by f_equal|done].
    + by exists [].
Qed.

Lemma dropwhile_head {A} (p : A -> bool) l x :
  head (dropwhile p l) = Some x -> p x = false.
Proof.
  induction l as [|y l IH]; simpl; [done|].
  destruct (p y) eqn:Hy; [done|]. simpl. by intros [= <-].
Qed.

Lemma rstrip_decompose s :
  exists post, s = rstrip s ++ post /\ forallb py_isspace post = true.
Proof.
  unfold rstrip.
  destruct (dropwhile_decompose py_isspace (reverse s)) as [pre [E F]].
  exists (reverse pre). split.
  - rewrite <- reverse_app, <- E. by rewrite reverse_involutive.
  - apply forallb_forall. intros x Hx.
    rewrite forallb_forall in F. apply F.
    rewrite <- list_elem_of_In in Hx |- *.
    by rewrite elem_of_reverse in Hx.
Qed.

(** Stripping removes white space at both ends and nothing else, and what
    is left neither starts nor ends with white space. *)
Lemma strip_decompose s :
  (exists pre post,
      s = pre ++ strip s ++ post
      /\ forallb py_isspace pre = true /\ forallb py_isspace post = true)
  /\ (forall c, head (strip s) = Some c -> py_isspace c = false)
  /\ (forall c, last (strip s) = Some c -> py_isspace c = false).
Proof.
  unfold strip.
  destruct (dropwhile_decompose py_isspace s) as [pre [E F]].
  destruct (rstrip_decompose (lstrip s)) as [post [E' F']].
  split; [|split].
  - exists pre, post. fold (lstrip s) in E. by rewrite <- E'.
  - intros c Hc. apply (dropwhile_head py_isspace s).
    fold (lstrip s). rewrite E'.
    destruct (rstrip (lstrip s)); [done|]. exact Hc.
  - intros c Hc. unfold rstrip in Hc. rewrite last_reverse in Hc.
    by apply dropwhile_head in Hc.
Qed.

Lemma strip_elem s c : c ∈ strip s -> c ∈ s.
Proof.
  destruct (strip_decompose s) as [[pre [post [E _]]] _].
  intros H. rewrite E. set_solver.
Qed.

Lemma split_nonempty sep s : split sep s <> [].
Proof.
  destruct s as [|c s]; simpl; [done|].
  destruct (c =? sep)%N; [done|]. by destruct (split sep s).
Qed.

(** Splitting cuts exactly at the separators: joining the pieces with the
    separator gives the string back, and no piece holds a separator. *)
Lemma join_split sep s : join sep (split sep s) = s.
Proof.
  induction s as [|c s IH]; simpl; [done|].
  destruct (N.eqb_spec c sep) as [->|Hne].
  - pose proof (split_nonempty sep s).
    simpl. destruct (split sep s); [done|]. by rewrite IH.
  - pose proof (split_nonempty sep s).
    destruct (split sep s) as [|piece rest]; [done|].
    simpl in *. destruct rest; by rewrite <- IH.
Qed.

Lemma split_no_sep sep s : Forall (fun piece => sep ∉ piece) (split sep s).
Proof.
  induction s as [|c s IH]; simpl.
  - constructor; [apply not_elem_of_nil|constructor].
  - destruct (N.eqb_spec c sep) as [->|Hne].
    + constructor; [apply not_elem_of_nil|done].
    + destruct (split sep s) as [|piece rest].
      * constructor; [|constructor].
        rewrite not_elem_of_cons. split; [done|apply not_elem_of_nil].
      * inversion IH; subst. constructor; [|done].
        by rewrite not_elem_of_cons.
Qed.

(** The loop of lines 93 to 96 keeps, in order, the stripped pieces that
    are not empty. *)
Lemma options_loop pieces acc :
  fold_left
    (fun response_options option =>
       let stripped := strip option in
       if truthy_str stripped then response_options ++ [stripped]
       else response_options)
    pieces acc
  = acc ++ filter (fun t => t <> []) (strip <$> pieces).
Proof.
  revert acc. induction pieces as [|piece pieces IH]; intros acc; simpl.
  - by rewrite app_nil_r.
  - rewrite IH, filter_cons.
    destruct (strip piece) eqn:E; simpl; [done|].
    by rewrite <- app_assoc.
Qed.

(** ** Claims about the [run] subcommand *)

(** C1 (amended).  An exception raised inside the [try], that is by the
    checks or by the constructor of the delegate, and that is an
    [Exception], is printed on standard error as one line made of its
    category ("File Error", "Input Error", "Connection Error", and
    "Unexpected Error" for every other class), a colon and its text, and
    [cli] exits with status 1.  An exception raised by [run_write] is not
    handled: it leaves [cli] as it is, with nothing printed. *)
Theorem run_exceptions_reported d a w :
  let ro := parse_response_options (arg_response_options a) in
  (forall e w',
      run_try d a ro w = (Raise e, w') ->
      exc_type e <> BaseException ->
      cli d (CommandRun a) w =
      (SysExit 1,
       with_stderr_line w' (category (exc_type e) ++ lit ": " ++ exc_str e)))
  /\ (forall r w' e w'',
         run_try d a ro w = (Return r, w') ->
         run_write d r (arg_output a) w' = (Raise e, w'') ->
         cli d (CommandRun a) w = (Raise e, w'')).
Proof.
  intros ro. split.
  - intros e w' H Hexc. simpl. unfold cli_run, bind, try_except.
    fold ro. rewrite H. by rewrite run_except_handled.
  - intros r w' e w'' H Hrw. simpl. unfold cli_run, bind, try_except.
    fold ro. rewrite H. by rewrite Hrw.
Qed.

Lemma run_exceptions_reported_witness :
  cli quiet_delegate (CommandRun default_run_args) empty_world =
  (SysExit 1,
   with_stderr_line empty_world
     (lit "File Error: Questions file not found: questions.txt"))
  /\ cli disconnected_delegate (CommandRun default_run_args) sample_world =
     (Raise (Exn ConnectionError (lit "Failed to connect to Ollama")),
      sample_world).
Proof.
  split.
  - apply (proj1 (run_exceptions_reported quiet_delegate default_run_args
                    empty_world)
             (Exn FileNotFoundError
                (lit "Questions file not found: questions.txt")) empty_world).
    + vm_compute. reflexivity.
    + simpl. discriminate.
  - apply (proj2 (run_exceptions_reported disconnected_delegate
                    default_run_args sample_world)
             tt sample_world).
    + vm_compute. reflexivity.
    + vm_compute. reflexivity.
Defined.

(** C1 as stated fails: with every check passing and a [run_write] that
    raises [ConnectionError], [cli] neither exits with status 1 nor prints
    anything on standard error; the exception escapes. *)
Lemma run_write_exception_escapes :
  let outcome :=
    cli disconnected_delegate (CommandRun default_run_args) sample_world in
  fst outcome = Raise (Exn ConnectionError (lit "Failed to connect to Ollama"))
  /\ fst outcome <> SysExit 1
  /\ stderr (snd outcome) = stderr sample_world.
Proof. vm_compute. repeat split; discriminate. Qed.

(** C5.  A non-empty [--response-options] string is parsed by splitting on
    commas, trimming each token and dropping the tokens that became empty;
    every label of the result is non-empty, and "A,B,C" gives the three
    labels A, B, C. *)
Theorem parse_response_options_tokens s :
  s <> [] ->
  parse_response_options (Some s) = Some (trimmed_nonempty_tokens s)
  /\ join COMMA (split COMMA s) = s
  /\ Forall (fun label => label <> [] /\ COMMA ∉ label)
       (trimmed_nonempty_tokens s)
  /\ parse_response_options (Some (lit "A,B,C"))
     = Some [lit "A"; lit "B"; lit "C"].
Proof.
  intros Hs. repeat split.
  - unfold parse_response_options, trimmed_nonempty_tokens.
    destruct s; [done|]. simpl truthy_opt_str. cbv iota.
    by rewrite options_loop.
  - apply join_split.
  - unfold trimmed_nonempty_tokens. apply Forall_forall. intros label Hl.
    apply list_elem_of_filter in Hl as [Hne Hl]. split; [done|].
    apply list_elem_of_fmap in Hl as [piece [-> Hp]].
    pose proof (split_no_sep COMMA s) as Hsep.
    rewrite Forall_forall in Hsep. intros Hc.
    apply (Hsep piece Hp). by apply strip_elem.
Qed.

Lemma parse_response_options_tokens_witness :
  parse_response_options (Some (lit " Never, ,Sometimes ,Always,"))
  = Some (trimmed_nonempty_tokens (lit " Never, ,Sometimes ,Always,"))
  /\ trimmed_nonempty_tokens (lit " Never, ,Sometimes ,Always,")
     = [lit "Never"; lit "Sometimes"; lit "Always"].
Proof.
  split.
  - apply (parse_response_options_tokens (lit " Never, ,Sometimes ,Always,")).
    discriminate.
  - vm_compute. reflexivity.
Defined.

Lemma paths_ok_first_failure a ro w :
  paths_ok a w = true ->
  first_failure a ro w =
  if too_few_options ro then
    Some (Exn ValueError (lit "You must provide at least 2 response options."))
  else if negb (temperature_in_range (arg_temperature a)) then
    Some (Exn ValueError (lit "Temperature must be between 0.0 and 2.0"))
  else None.
Proof.
  unfold paths_ok, first_failure. intros H.
  apply andb_prop in H as [H H3]. apply andb_prop in H as [H1 H2].
  rewrite H1, H2. simpl.
  destruct (truthy_str (dirname (arg_output a))); simpl in *; [|done].
  by rewrite H3.
Qed.

(** Whenever some check fails, [cli] exits with status 1 after one line on
    standard error, whatever the delegate is. *)
Lemma failure_exits a w :
  first_failure a (parse_response_options (arg_response_options a)) w <> None ->
  exists line,
    forall d, cli d (CommandRun a) w = (SysExit 1, with_stderr_line w line).
Proof.
  intros H.
  destruct (first_failure a (parse_response_options (arg_response_options a)) w)
    as [e|] eqn:E; [|done].
  eexists. intros d. by apply cli_run_failure.
Qed.

(** C6 (amended).  When the response options parse to a list of two
    labels or fewer, [cli] exits with status 1 after one line on standard
    error and the outcome does not depend on the delegate, which is not
    constructed; when the three path checks pass, that line is the input
    error about response options.  When the list has more than two
    labels, this check passes: with the path checks passing and the
    temperature in range, [cli] goes on to construct the delegate with
    that list. *)
Theorem few_options_rejected a w l :
  parse_response_options (arg_response_options a) = Some l ->
  ((length l <= 2)%nat ->
   (exists line,
       forall d, cli d (CommandRun a) w = (SysExit 1, with_stderr_line w line))
   /\ (paths_ok a w = true ->
       forall d,
         cli d (CommandRun a) w =
         (SysExit 1,
          with_stderr_line w
            (lit "Input Error: You must provide at least 2 response options."))))
  /\ ((2 < length l)%nat ->
      too_few_options (Some l) = false
      /\ (paths_ok a w = true ->
          temperature_in_range (arg_temperature a) = true ->
          forall d,
            cli d (CommandRun a) w =
            (responder <- try_except
                 (SurveyResponder d (config_of a (Some l))) run_except ;;
             run_write d responder (arg_output a)) w)).
Proof.
  intros Hl. split.
  - intros Hlen.
    assert (Hfew : too_few_options (Some l) = true).
    { simpl. apply Z.leb_le. lia. }
    split.
    + apply failure_exits. rewrite Hl. unfold first_failure.
      rewrite Hfew.
      repeat match goal with |- context [if ?b then _ else _] => destruct b end;
        done.
    + intros Hp d.
      rewrite (cli_run_failure d a w
                 (Exn ValueError
                    (lit "You must provide at least 2 response options.")));
        [done|].
      rewrite Hl, paths_ok_first_failure by done. by rewrite Hfew.
  - intros Hlen.
    assert (Hfew : too_few_options (Some l) = false).
    { simpl. apply Z.leb_gt. lia. }
    split; [done|].
    intros Hp Ht d. rewrite cli_run_valid; rewrite Hl; [done|].
    rewrite paths_ok_first_failure by done. by rewrite Hfew, Ht.
Qed.

Lemma few_options_rejected_witness :
  cli quiet_delegate (CommandRun (run_with_options (lit "Yes, No")))
    sample_world =
  (SysExit 1,
   with_stderr_line sample_world
     (lit "Input Error: You must provide at least 2 response options."))
  /\ too_few_options (Some [lit "A"; lit "B"; lit "C"]) = false.
Proof.
  split.
  - apply (proj1 (few_options_rejected (run_with_options (lit "Yes, No"))
                    sample_world [lit "Yes"; lit "No"] eq_refl)).
    + simpl. lia.
    + vm_compute. reflexivity.
  - apply (proj2 (few_options_rejected (run_with_options (lit "A,B,C"))
                    sample_world [lit "A"; lit "B"; lit "C"] eq_refl)).
    simpl. lia.
Defined.

(** C6 as stated fails: with two response options and no questions file,
    the line printed is a file error, not an input error. *)
Lemma few_options_file_error_first :
  let a := run_with_options (lit "Yes, No") in
  parse_response_options (arg_response_options a) = Some [lit "Yes"; lit "No"]
  /\ cli quiet_delegate (CommandRun a) empty_world =
     (SysExit 1,
      with_stderr_line empty_world
        (lit "File Error: Questions file not found: questions.txt"))
  /\ ~ (exists msg,
          stderr (snd (cli quiet_delegate (CommandRun a) empty_world))
          = stderr empty_world ++ lit "Input Error: " ++ msg ++ [NEWLINE]).
Proof.
  repeat split. intros [msg H]. vm_compute in H. discriminate.
Qed.

(** C7.  A temperature strictly below 0.0 or strictly above 2.0 fails the
    temperature check, and [cli] then exits with status 1 (with the
    temperature message when the earlier checks pass); 0.0, 2.0 and every
    value between them pass the check, after which, the earlier checks
    passing too, [cli] goes on to construct the delegate. *)
Theorem temperature_validation a w :
  let t := arg_temperature a in
  let ro := parse_response_options (arg_response_options a) in
  (SFltb t float_0 = true \/ SFltb float_2 t = true ->
   temperature_in_range t = false
   /\ (exists line,
          forall d, cli d (CommandRun a) w = (SysExit 1, with_stderr_line w line))
   /\ (paths_ok a w = true -> too_few_options ro = false ->
       forall d,
         cli d (CommandRun a) w =
         (SysExit 1,
          with_stderr_line w
            (lit "Input Error: Temperature must be between 0.0 and 2.0"))))
  /\ temperature_in_range float_0 = true
  /\ temperature_in_range float_2 = true
  /\ (SFleb float_0 t = true -> SFleb t float_2 = true ->
      temperature_in_range t = true
      /\ (paths_ok a w = true -> too_few_options ro = false ->
          forall d,
            cli d (CommandRun a) w =
            (responder <- try_except
                 (SurveyResponder d (config_of a ro)) run_except ;;
             run_write d responder (arg_output a)) w)).
Proof.
  intros t ro. split; [|split; [done|split; [done|]]].
  - intros Hout. apply temperature_out_of_range in Hout. fold t in Hout.
    split; [done|]. split.
    + apply failure_exits. fold ro. unfold first_failure. fold t.
      rewrite Hout. cbn [negb].
      repeat match goal with |- context [if ?b then _ else _] => destruct b end;
        done.
    + intros Hp Hfew d.
      rewrite (cli_run_failure d a w
                 (Exn ValueError
                    (lit "Temperature must be between 0.0 and 2.0")));
        [done|].
      fold ro. rewrite paths_ok_first_failure by done. fold t.
      by rewrite Hfew, Hout.
  - intros H0 H2.
    assert (Hin : temperature_in_range t = true).
    { unfold temperature_in_range. by rewrite H0, H2. }
    split; [done|]. intros Hp Hfew d.
    rewrite cli_run_valid; fold ro; [done|].
    rewrite paths_ok_first_failure by done. fold t. by rewrite Hfew, Hin.
Qed.

Lemma temperature_validation_witness :
  cli quiet_delegate (CommandRun (run_with_temperature float_3)) sample_world =
  (SysExit 1,
   with_stderr_line sample_world
     (lit "Input Error: Temperature must be between 0.0 and 2.0"))
  /\ temperature_in_range float_minus_half = false
  /\ temperature_in_range float_1 = true.
Proof.
  split; [|split].
  - apply (proj1 (temperature_validation (run_with_temperature float_3)
                    sample_world)).
    + right. vm_compute. reflexivity.
    + vm_compute. reflexivity.
    + vm_compute. reflexivity.
  - apply (proj1 (temperature_validation
                    (run_with_temperature float_minus_half) empty_world)).
    left. vm_compute. reflexivity.
  - apply (proj2 (proj2 (proj2 (temperature_validation
                                  (run_with_temperature float_1)
                                  sample_world)))).
    + vm_compute. reflexivity.
    + vm_compute. reflexivity.
Defined.

(** C8.  When the questions file does not exist, or the persona file does
    not exist, or the output path has a non-empty directory part that does
    not exist, [cli] prints one file error line and exits with status 1.
    The outcome is the same for every delegate and the world is the
    initial one plus that line: the delegate is neither constructed nor
    run. *)
Theorem missing_path_exits a w :
  fs w !! arg_questions a = None
  \/ fs w !! arg_persona a = None
  \/ (dirname (arg_output a) <> [] /\ fs w !! dirname (arg_output a) = None) ->
  exists msg,
    forall d,
      cli d (CommandRun a) w =
      (SysExit 1, with_stderr_line w (lit "File Error: " ++ msg)).
Proof.
  intros H.
  assert (exists msg,
             first_failure a (parse_response_options (arg_response_options a)) w
             = Some (Exn FileNotFoundError msg)) as [msg Hmsg].
  { unfold first_failure.
    destruct (bool_decide (is_Some (fs w !! arg_questions a))) eqn:E1;
      simpl; [|eauto].
    destruct (bool_decide (is_Some (fs w !! arg_persona a))) eqn:E2;
      simpl; [|eauto].
    apply bool_decide_eq_true in E1, E2.
    destruct H as [H|[H|[Hd Ho]]].
    - rewrite H in E1. by destruct E1.
    - rewrite H in E2. by destruct E2.
    - destruct (dirname (arg_output a)) eqn:Ed; [done|].
      rewrite bool_decide_eq_false_2; [simpl; eauto|].
      rewrite Ho. by intros [? ?]. }
  exists msg. intros d. by rewrite (cli_run_failure d a w _ Hmsg).
Qed.

Lemma missing_path_exits_witness :
  exists msg,
    cli quiet_delegate (CommandRun (run_with_output (lit "out/results.csv")))
      sample_world
    = (SysExit 1, with_stderr_line sample_world (lit "File Error: " ++ msg)).
Proof.
  destruct (missing_path_exits (run_with_output (lit "out/results.csv"))
              sample_world) as [msg Hmsg].
  - right. right. split.
    + vm_compute. discriminate.
    + vm_compute. reflexivity.
  - exists msg. apply Hmsg.
Defined.

(** C10.  When [--response-options] is the empty string, the parsed
    response options are [None], as when the flag is absent; the check on
    the number of options does not fire; and, the other checks passing,
    the delegate is constructed with [response_options = None]. *)
Theorem empty_options_are_absent a w :
  arg_response_options a = Some [] ->
  parse_response_options (arg_response_options a) = None
  /\ parse_response_options (arg_response_options a)
     = parse_response_options None
  /\ too_few_options (parse_response_options (arg_response_options a)) = false
  /\ (paths_ok a w = true ->
      temperature_in_range (arg_temperature a) = true ->
      forall d,
        cli d (CommandRun a) w =
        (responder <- try_except
             (SurveyResponder d (config_of a None)) run_except ;;
         run_write d responder (arg_output a)) w
        /\ response_options (config_of a None) = None).
Proof.
  intros H. rewrite H.
  split; [done|]. split; [done|]. split; [done|].
  intros Hp Ht d. split; [|done].
  rewrite cli_run_valid; rewrite H; [done|].
  rewrite paths_ok_first_failure by done.
  simpl. by rewrite Ht.
Qed.

Lemma empty_options_are_absent_witness :
  cli quiet_delegate (CommandRun (run_with_options [])) sample_world =
  (responder <- try_except
       (SurveyResponder quiet_delegate
          (config_of (run_with_options []) None)) run_except ;;
   run_write quiet_delegate responder (lit "results.csv")) sample_world.
Proof.
  apply (proj2 (proj2 (proj2 (empty_options_are_absent (run_with_options [])
                                sample_world eq_refl)))).
  - vm_compute. reflexivity.
  - vm_compute. reflexivity.
Defined.

(** ** The questions file: lines *)

Arguments lit : simpl never.
Arguments str_int : simpl never.

Lemma lines_no_newline c : Forall (fun line => NEWLINE ∉ line) (lines c).
Proof.
  induction c as [|x c IH]; simpl; [constructor|].
  destruct (N.eqb_spec x NEWLINE) as [->|Hne].
  - constructor; [apply not_elem_of_nil|done].
  - destruct (lines c) as [|line rest].
    + constructor; [|constructor].
      rewrite not_elem_of_cons. split; [done|apply not_elem_of_nil].
    + inversion IH; subst. constructor; [|done].
      by rewrite not_elem_of_cons.
Qed.

Lemma lines_one_line t rest :
  NEWLINE ∉ t -> lines (t ++ NEWLINE :: rest) = t :: lines rest.
Proof.
  induction t as [|x t IH]; intros Ht; simpl; [done|].
  apply not_elem_of_cons in Ht as [Hx Ht].
  destruct (N.eqb_spec x NEWLINE) as [->|_]; [done|].
  by rewrite IH.
Qed.

Lemma unlines_cons q qs : unlines (q :: qs) = q ++ NEWLINE :: unlines qs.
Proof. unfold unlines. simpl. by rewrite <- app_assoc. Qed.

(** Writing lines out and reading them back gives the same lines. *)
Lemma lines_unlines qs :
  Forall (fun line => NEWLINE ∉ line) qs -> lines (unlines qs) = qs.
Proof.
  induction 1 as [|q qs Hq _ IH]; [done|].
  rewrite unlines_cons, lines_one_line by done. by rewrite IH.
Qed.

Lemma lines_nil c : lines c = [] -> c = [].
Proof.
  destruct c as [|x c]; [done|]. simpl.
  destruct (x =? NEWLINE)%N; [done|]. by destruct (lines c).
Qed.

(** After a text of terminated lines, more text starts a new line. *)
Lemma lines_app_terminated c c' :
  terminated c -> lines (c ++ c') = lines c ++ lines c'.
Proof.
  induction c as [|x c IH]; intros Hc; simpl; [done|].
  destruct Hc as [Hc|Hc]; [done|].
  destruct c as [|y c].
  - simpl in Hc. injection Hc as ->. done.
  - rewrite IH by (right; exact Hc).
    destruct (x =? NEWLINE)%N; [done|].
    destruct (lines (y :: c)) as [|line rest] eqn:E; [|done].
    by apply lines_nil in E.
Qed.

(** ** The questions file: the loops of [--list] and [--delete] *)

Lemma for_each_print start qs w :
  for_each (enumerate start qs)
    (fun iq => print (str_int (fst iq) ++ lit ". " ++ snd iq)) w
  = (Return tt, World (fs w) (stdout w ++ listing start qs) (stderr w)).
Proof.
  revert start w. induction qs as [|q qs IH]; intros start w; simpl.
  - unfold ret. rewrite app_nil_r. by destruct w.
  - unfold bind, print. rewrite IH. simpl.
    do 2 f_equal. by rewrite <- !app_assoc.
Qed.

Lemma for_each_write (p : pystr) (qs : list pystr) (m : gmap pystr node)
    (c out err : pystr) :
  m !! p = Some (File c) ->
  for_each qs (fun q => f_write p (q ++ [NEWLINE])) (World m out err)
  = (Return tt, World (<[p := File (c ++ unlines qs)]> m) out err).
Proof.
  revert m c. induction qs as [|q qs IH]; intros m c Hm; simpl.
  - unfold ret, unlines. simpl. rewrite app_nil_r. by rewrite insert_id.
  - unfold bind, f_write. simpl. rewrite Hm.
    rewrite (IH _ (c ++ q ++ [NEWLINE])) by apply lookup_insert_eq.
    rewrite insert_insert_eq, unlines_cons.
    by rewrite <- !app_assoc.
Qed.

Lemma listing_app start qs q :
  listing start (qs ++ [q])
  = listing start qs
    ++ str_int (start + Z.of_nat (length qs)) ++ lit ". " ++ q ++ [NEWLINE].
Proof.
  revert start. induction qs as [|x qs IH]; intros start.
  - cbn [listing app length Z.of_nat]. by rewrite Z.add_0_r.
  - cbn [listing app]. rewrite IH. rewrite <- !app_assoc.
    rewrite <- app_comm_cons.
    replace (start + Z.of_nat (length (x :: qs)))
      with (start + 1 + Z.of_nat (length qs)); [done|].
    rewrite length_cons. lia.
Qed.

(** ** Claims about the [questions] subcommand *)

Lemma cli_questions_delete_eq file i w :
  is_Some (fs w !! file) ->
  cli_questions (questions_delete file i) w =
  if i =? 0 then no_action w else delete_question file i w.
Proof.
  intros H. unfold cli_questions, bind, path_exists. cbn [arg_file questions_delete
    arg_list arg_add arg_delete truthy_opt_str truthy_opt_int default].
  rewrite bool_decide_eq_true_2 by done. cbn [negb ret].
  by destruct (i =? 0).
Qed.

Lemma no_action_eq w :
  no_action w =
  (SysExit 1,
   with_stderr_line w (lit "No action specified. Use --list, --add, or --delete.")).
Proof. done. Qed.

Lemma delete_question_invalid file c i w :
  fs w !! file = Some (File c) ->
  i - 1 < 0 \/ Z.of_nat (length (lines c)) <= i - 1 ->
  delete_question file i w =
  (SysExit 1, with_stderr_line w (lit "Invalid line number: " ++ str_int i)).
Proof.
  intros Hfs Hi. unfold delete_question, bind, load_questions.
  rewrite Hfs.
  replace ((i - 1 <? 0) || (i - 1 >=? Z.of_nat (length (lines c)))) with true;
    [done|].
  symmetry. apply orb_true_iff. rewrite Z.ltb_lt, Z.geb_leb, Z.leb_le. lia.
Qed.

Lemma py_pop_in_range {A} (l : list A) (i : Z) :
  0 <= i < Z.of_nat (length l) ->
  exists x, l !! Z.to_nat i = Some x
            /\ py_pop l i = Some (x, delete (Z.to_nat i) l).
Proof.
  intros Hi. unfold py_pop.
  destruct (lookup_lt_is_Some_2 l (Z.to_nat i)) as [x Hx]; [lia|].
  exists x. split; [done|].
  replace (i <? 0) with false by (symmetry; apply Z.ltb_ge; lia).
  replace ((0 <=? i) && (i <? Z.of_nat (length l))) with true.
  - by rewrite Hx.
  - symmetry. apply andb_true_iff. rewrite Z.leb_le, Z.ltb_lt. lia.
Qed.

Lemma delete_question_valid file c i w :
  fs w !! file = Some (File c) ->
  1 <= i <= Z.of_nat (length (lines c)) ->
  exists removed,
    lines c !! Z.to_nat (i - 1) = Some removed
    /\ delete_question file i w =
       (Return tt,
        World (<[file := File (unlines (delete (Z.to_nat (i - 1)) (lines c)))]>
                 (fs w))
          (stdout w ++ lit "Deleted question: " ++ removed ++ [NEWLINE])
          (stderr w)).
Proof.
  intros Hfs Hi.
  destruct (py_pop_in_range (lines c) (i - 1)) as [removed [Hx Hpop]]; [lia|].
  exists removed. split; [done|].
  unfold delete_question, bind, load_questions. rewrite Hfs.
  replace ((i - 1 <? 0) || (i - 1 >=? Z.of_nat (length (lines c)))) with false.
  2: { symmetry. apply orb_false_iff. rewrite Z.ltb_ge, Z.geb_leb, Z.leb_gt. lia. }
  cbn [ret]. rewrite Hpop. unfold open_write. rewrite Hfs.
  rewrite (for_each_write file _ _ []) by apply lookup_insert_eq.
  rewrite insert_insert_eq. unfold print. cbn [fs stdout stderr app].
  by rewrite <- !app_assoc.
Qed.

(** C2.  For an existing questions file and a [--delete] argument below 1
    or above the number of lines of the file, [cli] exits with status 1,
    which is not zero, and the file system, hence the questions file, is
    as before. *)
Theorem delete_out_of_range d file c w i :
  fs w !! file = Some (File c) ->
  i < 1 \/ Z.of_nat (length (lines c)) < i ->
  exists code w',
    cli d (CommandQuestions (questions_delete file i)) w = (SysExit code, w')
    /\ code <> 0
    /\ fs w' = fs w
    /\ fs w' !! file = Some (File c).
Proof.
  intros Hfs Hi. cbn [cli].
  rewrite cli_questions_delete_eq by eauto.
  destruct (i =? 0) eqn:E.
  - rewrite no_action_eq. eexists _, _. by repeat split.
  - rewrite (delete_question_invalid file c) by (done || lia).
    eexists _, _. by repeat split.
Qed.

Lemma delete_out_of_range_witness :
  exists code w',
    cli quiet_delegate
      (CommandQuestions (questions_delete (lit "questions.txt") 3))
      sample_world = (SysExit code, w')
    /\ code <> 0
    /\ fs w' = fs sample_world
    /\ fs w' !! lit "questions.txt" = Some (File two_questions).
Proof.
  apply (delete_out_of_range quiet_delegate (lit "questions.txt")
           two_questions sample_world 3).
  - vm_compute. reflexivity.
  - right. vm_compute. reflexivity.
Defined.

(** C4.  For a questions file of n lines and 1 <= i <= n, [--delete i]
    returns normally and rewrites the file so that its lines are the old
    ones without line i, in their old order; the removed line is the one
    reported on standard output. *)
Theorem delete_removes_line d file c w i :
  fs w !! file = Some (File c) ->
  1 <= i <= Z.of_nat (length (lines c)) ->
  exists removed c',
    lines c !! Z.to_nat (i - 1) = Some removed
    /\ cli d (CommandQuestions (questions_delete file i)) w =
       (Return tt,
        World (<[file := File c']> (fs w))
          (stdout w ++ lit "Deleted question: " ++ removed ++ [NEWLINE])
          (stderr w))
    /\ lines c' = take (Z.to_nat (i - 1)) (lines c) ++ drop (Z.to_nat i) (lines c)
    /\ length (lines c') = (length (lines c) - 1)%nat.
Proof.
  intros Hfs Hi. cbn [cli].
  rewrite cli_questions_delete_eq by eauto.
  replace (i =? 0) with false by (symmetry; apply Z.eqb_neq; lia).
  destruct (delete_question_valid file c i w Hfs Hi) as [removed [Hx Hdel]].
  exists removed, (unlines (delete (Z.to_nat (i - 1)) (lines c))).
  split; [done|]. split; [done|].
  assert (Hl : lines (unlines (delete (Z.to_nat (i - 1)) (lines c)))
               = take (Z.to_nat (i - 1)) (lines c) ++ drop (Z.to_nat i) (lines c)).
  { rewrite lines_unlines.
    - rewrite delete_take_drop. do 2 f_equal. lia.
    - rewrite delete_take_drop. apply Forall_app.
      split; [apply Forall_take|apply Forall_drop]; apply lines_no_newline. }
  split; [done|].
  rewrite Hl, length_app, length_take, length_drop. lia.
Qed.

Lemma delete_removes_line_witness :
  exists removed c',
    two_questions_lines !! Z.to_nat (1 - 1) = Some removed
    /\ cli quiet_delegate
         (CommandQuestions (questions_delete (lit "questions.txt") 1))
         sample_world =
       (Return tt,
        World (<[lit "questions.txt" := File c']> (fs sample_world))
          (stdout sample_world ++ lit "Deleted question: " ++ removed ++ [NEWLINE])
          (stderr sample_world))
    /\ lines c' = take (Z.to_nat (1 - 1)) two_questions_lines
                  ++ drop (Z.to_nat 1) two_questions_lines
    /\ length (lines c') = (length two_questions_lines - 1)%nat.
Proof.
  apply (delete_removes_line quiet_delegate (lit "questions.txt")
           two_questions sample_world 1).
  - vm_compute. reflexivity.
  - vm_compute. split; discriminate.
Defined.

(** C9.  For an existing questions file, [--delete 0] is taken as no
    action at all: the only output is the no-action line on standard
    error (no invalid line number is reported), the exit status is 1, and
    the file system is untouched. *)
Theorem delete_zero_is_no_action d file w :
  is_Some (fs w !! file) ->
  cli d (CommandQuestions (questions_delete file 0)) w =
  (SysExit 1,
   World (fs w) (stdout w)
     (stderr w ++ lit "No action specified. Use --list, --add, or --delete."
             ++ [NEWLINE])).
Proof.
  intros H. cbn [cli]. by rewrite cli_questions_delete_eq.
Qed.

Lemma delete_zero_is_no_action_witness :
  cli quiet_delegate
    (CommandQuestions (questions_delete (lit "questions.txt") 0)) sample_world =
  (SysExit 1,
   World (fs sample_world) (stdout sample_world)
     (stderr sample_world
      ++ lit "No action specified. Use --list, --add, or --delete."
      ++ [NEWLINE])).
Proof.
  apply (delete_zero_is_no_action quiet_delegate (lit "questions.txt")
           sample_world).
  vm_compute. eexists. reflexivity.
Defined.

Lemma cli_questions_list_eq file c w :
  fs w !! file = Some (File c) ->
  cli_questions (questions_list file) w =
  (Return tt, World (fs w) (stdout w ++ listing 1 (lines c)) (stderr w)).
Proof.
  intros H. unfold cli_questions, bind, path_exists.
  cbn [arg_file questions_list arg_list].
  rewrite bool_decide_eq_true_2 by eauto. cbn [negb ret].
  unfold list_questions, bind, load_questions. rewrite H.
  apply for_each_print.
Qed.

Lemma strip_nil : strip [] = [].
Proof. done. Qed.

(** C3 (amended).  Let the trimmed form of [s] be non-empty and free of
    newlines, and let the questions file either exist as a text of
    terminated lines, or be absent at a path where it can be created.
    Then [--add s] returns normally, the file (created if it was absent)
    holds its old text followed by exactly one more line, the trimmed
    [s], and a following [--list] prints the old listing followed by the
    added question under the last index, the old number of lines plus
    one. *)
Theorem add_appends_line d file s w c :
  strip s <> [] ->
  NEWLINE ∉ strip s ->
  (fs w !! file = Some (File c) /\ terminated c)
  \/ (fs w !! file = None /\ c = [] /\ file <> []
      /\ parent_ok (fs w) file = true) ->
  let line := strip s in
  let w' :=
    World (<[file := File (c ++ line ++ [NEWLINE])]> (fs w))
      (stdout w ++ lit "Added question: " ++ line ++ [NEWLINE]) (stderr w) in
  cli d (CommandQuestions (questions_add file s)) w = (Return tt, w')
  /\ lines (c ++ line ++ [NEWLINE]) = lines c ++ [line]
  /\ cli d (CommandQuestions (questions_list file)) w' =
     (Return tt,
      World (fs w')
        (stdout w' ++ listing 1 (lines c)
         ++ str_int (1 + Z.of_nat (length (lines c))) ++ lit ". " ++ line
         ++ [NEWLINE])
        (stderr w')).
Proof.
  intros Hne Hnl Hfile line w'.
  assert (Hs : truthy_str s = true).
  { destruct s; [by rewrite strip_nil in Hne|done]. }
  assert (Hlines : lines (c ++ line ++ [NEWLINE]) = lines c ++ [line]).
  { destruct Hfile as [[_ Ht]|(_ & -> & _)].
    - rewrite lines_app_terminated by done.
      by rewrite (lines_one_line line []).
    - rewrite !app_nil_l. by rewrite (lines_one_line line []). }
  split; [|split; [done|]].
  - cbn [cli]. unfold cli_questions, bind, path_exists.
    cbn [arg_file questions_add arg_list arg_add truthy_opt_str default].
    rewrite Hs.
    destruct Hfile as [[Hfs _]|(Hfs & -> & Hfile & Hparent)].
    + rewrite bool_decide_eq_true_2 by eauto. cbn [negb ret].
      unfold add_question, bind, open_append, f_write, print. rewrite Hfs.
      cbn [fs stdout stderr]. rewrite Hfs. done.
    + rewrite bool_decide_eq_false_2 by (rewrite Hfs; by intros [? ?]).
      cbn [negb]. unfold add_question, bind, open_append, f_write, print.
      rewrite Hfs. replace (truthy_str file) with true by (by destruct file).
      rewrite Hparent. cbn [andb fs stdout stderr].
      rewrite lookup_insert_eq. cbn [fs stdout stderr].
      rewrite lookup_insert_eq. by rewrite insert_insert_eq.
  - cbn [cli]. rewrite (cli_questions_list_eq file (c ++ line ++ [NEWLINE]))
      by apply lookup_insert_eq.
    by rewrite Hlines, listing_app.
Qed.

Lemma add_appends_line_witness :
  let line := lit "How are you?" in
  let w' :=
    World (<[lit "q.txt" := File (line ++ [NEWLINE])]> (fs sample_world))
      (lit "Added question: " ++ line ++ [NEWLINE]) [] in
  cli quiet_delegate
    (CommandQuestions (questions_add (lit "q.txt") (lit "  How are you? ")))
    sample_world = (Return tt, w')
  /\ cli quiet_delegate
       (CommandQuestions
          (questions_add (lit "questions.txt") (lit "  How are you? ")))
       sample_world
     = (Return tt,
        World (<[lit "questions.txt" := File (two_questions ++ line ++ [NEWLINE])]>
                 (fs sample_world))
          (lit "Added question: " ++ line ++ [NEWLINE]) []).
Proof.
  split.
  - apply (add_appends_line quiet_delegate (lit "q.txt")
             (lit "  How are you? ") sample_world []).
    + vm_compute. discriminate.
    + compute_done.
    + right. repeat split; vm_compute; (reflexivity || discriminate).
  - apply (add_appends_line quiet_delegate (lit "questions.txt")
             (lit "  How are you? ") sample_world two_questions).
    + vm_compute. discriminate.
    + compute_done.
    + left. split; [vm_compute; reflexivity|right; vm_compute; reflexivity].
Defined.

(** C3 as stated fails: a question made of blanks only is accepted, and
    the line it appends to the file is empty. *)
Lemma add_blank_appends_empty_line :
  let s := lit "   " in
  let outcome :=
    cli quiet_delegate (CommandQuestions (questions_add (lit "questions.txt") s))
      sample_world in
  fst outcome = Return tt
  /\ strip s = []
  /\ fs (snd outcome) !! lit "questions.txt"
     = Some (File (two_questions ++ [NEWLINE]))
  /\ ~ (exists line,
          line <> []
          /\ fs (snd outcome) !! lit "questions.txt"
             = Some (File (two_questions ++ line ++ [NEWLINE]))).
Proof.
  split; [vm_compute; reflexivity|].
  split; [vm_compute; reflexivity|].
  split; [vm_compute; reflexivity|].
  intros [line [Hne H]].
  assert (E : fs (snd (cli quiet_delegate
                         (CommandQuestions
                            (questions_add (lit "questions.txt") (lit "   ")))
                         sample_world)) !! lit "questions.txt"
              = Some (File (two_questions ++ [NEWLINE])))
    by (vm_compute; reflexivity).
  rewrite E in H. injection H as H.
  destruct line as [|x line]; [done|].
  injection H as _ H. by destruct line.
Qed.

(** The other two conditions of C3 (amended) are needed as well.  A
    question with a newline inside is written as it is and reads back as
    two lines. *)
Lemma add_inner_newline_appends_two_lines :
  let s := lit "first" ++ [NEWLINE] ++ lit "second" in
  let outcome :=
    cli quiet_delegate (CommandQuestions (questions_add (lit "questions.txt") s))
      sample_world in
  exists c',
    fs (snd outcome) !! lit "questions.txt" = Some (File c')
    /\ lines c' = two_questions_lines ++ [lit "first"; lit "second"].
Proof. eexists. split; vm_compute; reflexivity. Qed.

(** A question added to a file whose last line has no terminator
    continues that line. *)
Lemma add_to_unterminated_file_joins_lines :
  let w := World {[ lit "questions.txt" := File (lit "Q1") ]} [] [] in
  let outcome :=
    cli quiet_delegate
      (CommandQuestions (questions_add (lit "questions.txt") (lit "Q2"))) w in
  exists c',
    fs (snd outcome) !! lit "questions.txt" = Some (File c')
    /\ lines c' = [lit "Q1Q2"].
Proof. eexists. split; vm_compute; reflexivity. Qed.

(** With [--add] and an empty string, nothing is added: the argument is
    falsy and the call ends in the no-action branch. *)
Lemma add_empty_string_is_no_action :
  cli quiet_delegate
    (CommandQuestions (questions_add (lit "questions.txt") [])) sample_world
  = (SysExit 1,
     with_stderr_line sample_world
       (lit "No action specified. Use --list, --add, or --delete.")).
Proof. vm_compute. reflexivity. Qed.

(** ** Further properties of the [run] subcommand *)

Lemma checks_pass_first_failure a ro w :
  paths_ok a w = true ->
  too_few_options ro = false ->
  temperature_in_range (arg_temperature a) = true ->
  first_failure a ro w = None.
Proof.
  intros Hp Hf Ht. rewrite paths_ok_first_failure by done.
  by rewrite Hf, Ht.
Qed.

Lemma too_few_first_failure a ro w :
  too_few_options ro = true -> first_failure a ro w <> None.
Proof.
  intros H. unfold first_failure. rewrite H.
  repeat match goal with |- context [if ?b then _ else _] => destruct b end;
    done.
Qed.

(** X8.  The path checks are made in the order questions file, persona
    file, output directory, and the first one that fails decides the
    line: it names the missing path, [cli] exits with status 1, and the
    world only gains that line, whatever the other arguments and the
    delegate are. *)
Theorem path_checks_in_order d a w :
  (fs w !! arg_questions a = None ->
   cli d (CommandRun a) w =
   (SysExit 1,
    with_stderr_line w
      (lit "File Error: Questions file not found: " ++ arg_questions a)))
  /\ (is_Some (fs w !! arg_questions a) ->
      fs w !! arg_persona a = None ->
      cli d (CommandRun a) w =
      (SysExit 1,
       with_stderr_line w
         (lit "File Error: Persona file not found: " ++ arg_persona a)))
  /\ (is_Some (fs w !! arg_questions a) ->
      is_Some (fs w !! arg_persona a) ->
      dirname (arg_output a) <> [] ->
      fs w !! dirname (arg_output a) = None ->
      cli d (CommandRun a) w =
      (SysExit 1,
       with_stderr_line w
         (lit "File Error: Output directory does not exist: "
          ++ dirname (arg_output a)))).
Proof.
  split; [|split].
  - intros Hq.
    rewrite (cli_run_failure d a w
               (Exn FileNotFoundError
                  (lit "Questions file not found: " ++ arg_questions a)));
      [done|].
    unfold first_failure.
    rewrite bool_decide_eq_false_2; [done|]. rewrite Hq. by intros [? ?].
  - intros Hq Hp.
    rewrite (cli_run_failure d a w
               (Exn FileNotFoundError
                  (lit "Persona file not found: " ++ arg_persona a)));
      [done|].
    unfold first_failure.
    rewrite bool_decide_eq_true_2 by done. cbn [negb].
    rewrite bool_decide_eq_false_2; [done|]. rewrite Hp. by intros [? ?].
  - intros Hq Hp Hd Ho.
    rewrite (cli_run_failure d a w
               (Exn FileNotFoundError
                  (lit "Output directory does not exist: "
                   ++ dirname (arg_output a))));
      [done|].
    unfold first_failure.
    rewrite !bool_decide_eq_true_2 by done. cbn [negb].
    rewrite bool_decide_eq_false_2 by (rewrite Ho; by intros [? ?]).
    by destruct (dirname (arg_output a)).
Qed.

Lemma path_checks_in_order_witness :
  cli quiet_delegate (CommandRun (run_all_wrong (lit "q.txt") (lit "p.json")))
    empty_world
  = (SysExit 1,
     with_stderr_line empty_world
       (lit "File Error: Questions file not found: " ++ lit "q.txt"))
  /\ cli quiet_delegate
       (CommandRun (run_all_wrong (lit "questions.txt") (lit "p.json")))
       sample_world
     = (SysExit 1,
        with_stderr_line sample_world
          (lit "File Error: Persona file not found: " ++ lit "p.json"))
  /\ cli quiet_delegate
       (CommandRun (run_all_wrong (lit "questions.txt") (lit "persona.json")))
       sample_world
     = (SysExit 1,
        with_stderr_line sample_world
          (lit "File Error: Output directory does not exist: "
           ++ lit "no/such")).
Proof.
  split; [|split].
  - apply (proj1 (path_checks_in_order quiet_delegate
                    (run_all_wrong (lit "q.txt") (lit "p.json")) empty_world)).
    vm_compute. reflexivity.
  - apply (proj1 (proj2 (path_checks_in_order quiet_delegate
                           (run_all_wrong (lit "questions.txt") (lit "p.json"))
                           sample_world))).
    + vm_compute. eexists. reflexivity.
    + vm_compute. reflexivity.
  - apply (proj2 (proj2 (path_checks_in_order quiet_delegate
                           (run_all_wrong (lit "questions.txt")
                              (lit "persona.json")) sample_world))).
    + vm_compute. eexists. reflexivity.
    + vm_compute. eexists. reflexivity.
    + vm_compute. discriminate.
    + vm_compute. reflexivity.
Defined.

(** X9.  The number of response options is checked before the
    temperature: with the path checks passing, too few options and a
    temperature out of range, the line printed is the one about response
    options. *)
Theorem options_checked_before_temperature d a w :
  paths_ok a w = true ->
  too_few_options (parse_response_options (arg_response_options a)) = true ->
  temperature_in_range (arg_temperature a) = false ->
  cli d (CommandRun a) w =
  (SysExit 1,
   with_stderr_line w
     (lit "Input Error: You must provide at least 2 response options.")).
Proof.
  intros Hp Hf _.
  rewrite (cli_run_failure d a w
             (Exn ValueError
                (lit "You must provide at least 2 response options.")));
    [done|].
  rewrite paths_ok_first_failure by done. by rewrite Hf.
Qed.

Lemma options_checked_before_temperature_witness :
  cli quiet_delegate
    (CommandRun (RunArgs (lit "questions.txt") (lit "persona.json") (lit "m") 1
                   float_3 (Some (lit "A,B")) (lit "results.csv")))
    sample_world
  = (SysExit 1,
     with_stderr_line sample_world
       (lit "Input Error: You must provide at least 2 response options.")).
Proof.
  apply options_checked_before_temperature; vm_compute; reflexivity.
Defined.

Lemma dropwhile_all {A} (p : A -> bool) l :
  forallb p l = true -> dropwhile p l = [].
Proof.
  induction l as [|x l IH]; simpl; [done|].
  intros H. apply andb_prop in H as [Hx Hl]. rewrite Hx. by apply IH.
Qed.

Lemma dirname_no_slash p : SLASH ∉ p -> dirname p = [].
Proof.
  intros H. unfold dirname.
  rewrite dropwhile_all; [done|].
  apply forallb_forall. intros c Hc.
  rewrite <- list_elem_of_In, elem_of_reverse in Hc.
  destruct (N.eqb_spec c SLASH) as [->|_]; done.
Qed.

(** X10.  An output path without a slash has no directory part, so the
    output directory check is skipped (the comment on line 108): with
    the questions and persona files there and the other checks passing,
    [cli] goes on to the constructor wherever the process runs. *)
Theorem bare_filename_skips_directory_check a w :
  SLASH ∉ arg_output a ->
  dirname (arg_output a) = []
  /\ (is_Some (fs w !! arg_questions a) ->
      is_Some (fs w !! arg_persona a) ->
      too_few_options (parse_response_options (arg_response_options a)) = false ->
      temperature_in_range (arg_temperature a) = true ->
      forall d,
        cli d (CommandRun a) w =
        (responder <- try_except
             (SurveyResponder d
                (config_of a (parse_response_options (arg_response_options a))))
             run_except ;;
         run_write d responder (arg_output a)) w).
Proof.
  intros Hs. pose proof (dirname_no_slash _ Hs) as Hd. split; [done|].
  intros Hq Hp Hf Ht d. apply cli_run_valid.
  apply checks_pass_first_failure; [|done|done].
  unfold paths_ok. rewrite Hd.
  by rewrite (bool_decide_eq_true_2 _ Hq), (bool_decide_eq_true_2 _ Hp).
Qed.

Lemma bare_filename_skips_directory_check_witness :
  dirname (lit "results.csv") = []
  /\ cli reporting_delegate (CommandRun default_run_args) sample_world
     = (Return tt,
        World (fs sample_world) (lit "Saved results to results.csv" ++ [NEWLINE])
          []).
Proof.
  destruct (bare_filename_skips_directory_check default_run_args sample_world)
    as [Hd Hrun].
  - compute_done.
  - split; [exact Hd|].
    rewrite Hrun.
    + vm_compute. reflexivity.
    + vm_compute. eexists. reflexivity.
    + vm_compute. eexists. reflexivity.
    + vm_compute. reflexivity.
    + vm_compute. reflexivity.
Defined.

(** X15.  A temperature that is not a number or is infinite fails the
    check of line 115, so [cli] exits with status 1 without the
    delegate. *)
Theorem nonfinite_temperature_rejected a w :
  arg_temperature a = S754_nan
  \/ (exists s, arg_temperature a = S754_infinity s) ->
  temperature_in_range (arg_temperature a) = false
  /\ exists line,
       forall d, cli d (CommandRun a) w = (SysExit 1, with_stderr_line w line).
Proof.
  intros H.
  assert (Ht : temperature_in_range (arg_temperature a) = false).
  { destruct H as [->|[s ->]]; [done|]. by destruct s. }
  split; [done|].
  apply failure_exits. unfold first_failure. rewrite Ht. cbn [negb].
  repeat match goal with |- context [if ?b then _ else _] => destruct b end;
    done.
Qed.

Lemma nonfinite_temperature_rejected_witness :
  temperature_in_range (S754_infinity false) = false
  /\ exists line,
       cli quiet_delegate
         (CommandRun (run_with_temperature (S754_infinity false))) sample_world
       = (SysExit 1, with_stderr_line sample_world line).
Proof.
  destruct (nonfinite_temperature_rejected
              (run_with_temperature (S754_infinity false)) sample_world)
    as [Ht [line Hline]].
  - right. exists false. reflexivity.
  - split; [exact Ht|]. exists line. apply Hline.
Defined.

(** X16.  What the constructor raises outside of [Exception] (such as a
    keyboard interrupt) is not handled: it leaves [cli] as raised, with
    nothing printed by [cli]; and a [sys.exit] of the constructor keeps
    its own status.  In both cases [run_write] is not reached. *)
Theorem constructor_escapes_unhandled d a w w1 :
  let ro := parse_response_options (arg_response_options a) in
  paths_ok a w = true ->
  too_few_options ro = false ->
  temperature_in_range (arg_temperature a) = true ->
  (forall e,
      SurveyResponder d (config_of a ro) w = (Raise e, w1) ->
      exc_type e = BaseException ->
      cli d (CommandRun a) w = (Raise e, w1))
  /\ (forall code,
         SurveyResponder d (config_of a ro) w = (SysExit code, w1) ->
         cli d (CommandRun a) w = (SysExit code, w1)).
Proof.
  intros ro Hp Hf Ht.
  pose proof (checks_pass_first_failure a ro w Hp Hf Ht) as Hnone.
  split.
  - intros e He Hc. rewrite cli_run_valid by done. fold ro.
    unfold bind, try_except. rewrite He.
    unfold run_except. rewrite Hc. done.
  - intros code He. rewrite cli_run_valid by done. fold ro.
    unfold bind, try_except. by rewrite He.
Qed.

Lemma constructor_escapes_unhandled_witness :
  cli interrupted_delegate (CommandRun default_run_args) sample_world
  = (Raise (Exn BaseException (lit "KeyboardInterrupt")), sample_world)
  /\ cli exiting_delegate (CommandRun default_run_args) sample_world
     = (SysExit 3, sample_world).
Proof.
  split.
  - apply (proj1 (constructor_escapes_unhandled interrupted_delegate
                    default_run_args sample_world sample_world
                    eq_refl eq_refl eq_refl)); reflexivity.
  - apply (proj2 (constructor_escapes_unhandled exiting_delegate
                    default_run_args sample_world sample_world
                    eq_refl eq_refl eq_refl)); reflexivity.
Defined.

(** X17.  When every check passes and the constructor returns, the
    outcome of [cli] is the outcome of [run_write] on the responder it
    returned, the output path and the world the constructor left: [cli]
    prints nothing of its own and adds no handling. *)
Theorem run_success_is_run_write d a w r w1 :
  let ro := parse_response_options (arg_response_options a) in
  paths_ok a w = true ->
  too_few_options ro = false ->
  temperature_in_range (arg_temperature a) = true ->
  SurveyResponder d (config_of a ro) w = (Return r, w1) ->
  cli d (CommandRun a) w = run_write d r (arg_output a) w1.
Proof.
  intros ro Hp Hf Ht Hc.
  rewrite cli_run_valid by (by apply checks_pass_first_failure).
  fold ro. unfold bind, try_except. rewrite Hc.
  by destruct (run_write d r (arg_output a) w1) as [[] ?].
Qed.

Lemma run_success_is_run_write_witness :
  cli reporting_delegate (CommandRun default_run_args) sample_world
  = run_write reporting_delegate tt (lit "results.csv") sample_world.
Proof.
  apply (run_success_is_run_write reporting_delegate default_run_args
           sample_world tt sample_world); reflexivity.
Defined.

(** ** Further properties of the response options *)

Lemma strip_fixed x : trimmed x -> strip x = x.
Proof.
  intros [Hh Hl]. unfold strip.
  assert (E : lstrip x = x).
  { unfold lstrip. destruct x as [|c x]; [done|]. simpl.
    by rewrite (Hh c eq_refl). }
  rewrite E. unfold rstrip.
  destruct (reverse x) as [|c y] eqn:Er.
  - simpl. apply (f_equal reverse) in Er.
    by rewrite reverse_involutive in Er.
  - simpl. rewrite (Hl c).
    + rewrite <- Er. apply reverse_involutive.
    + by rewrite <- head_reverse, Er.
Qed.

Lemma strip_trimmed s : trimmed (strip s).
Proof. destruct (strip_decompose s) as (_ & Hh & Hl). by split. Qed.

Lemma strip_all_space s : forallb py_isspace s = true -> strip s = [].
Proof.
  intros H. unfold strip, lstrip. by rewrite dropwhile_all.
Qed.

Lemma split_single sep x : sep ∉ x -> split sep x = [x].
Proof.
  induction x as [|c x IH]; intros H; simpl; [done|].
  apply not_elem_of_cons in H as [Hc Hx].
  destruct (N.eqb_spec c sep) as [->|_]; [done|]. by rewrite IH.
Qed.

Lemma split_app_sep sep x t :
  sep ∉ x -> split sep (x ++ sep :: t) = x :: split sep t.
Proof.
  induction x as [|c x IH]; intros H; simpl.
  - by rewrite N.eqb_refl.
  - apply not_elem_of_cons in H as [Hc Hx].
    destruct (N.eqb_spec c sep) as [->|_]; [done|]. by rewrite IH.
Qed.

(** Joining pieces that hold no separator and splitting again gives the
    pieces back. *)
Lemma split_join sep l :
  l <> [] -> Forall (fun piece => sep ∉ piece) l -> split sep (join sep l) = l.
Proof.
  intros Hne H. induction H as [|x l Hx Hl IH]; [done|].
  destruct l as [|y l].
  - simpl. by apply split_single.
  - change (join sep (x :: y :: l)) with (x ++ sep :: join sep (y :: l)).
    rewrite split_app_sep by done. by rewrite IH.
Qed.

Lemma length_split sep s : length (split sep s) = S (occurrences sep s).
Proof.
  unfold occurrences. induction s as [|c s IH]; [done|].
  simpl. rewrite filter_cons.
  destruct (N.eqb_spec c sep) as [->|Hne].
  - rewrite decide_True by done. simpl. by rewrite IH.
  - rewrite decide_False by done. rewrite <- IH.
    pose proof (split_nonempty sep s). by destruct (split sep s).
Qed.

Lemma elem_join sep l piece c :
  piece ∈ l -> c ∈ piece -> c ∈ join sep l.
Proof.
  induction l as [|x l IH]; intros Hp Hc; [by apply elem_of_nil in Hp|].
  apply elem_of_cons in Hp as [->|Hp].
  - destruct l; simpl; [done|]. apply elem_of_app. by left.
  - destruct l as [|y l]; [by apply elem_of_nil in Hp|].
    change (join sep (x :: y :: l)) with (x ++ sep :: join sep (y :: l)).
    apply elem_of_app. right. apply elem_of_cons. right. by apply IH.
Qed.

Lemma parse_nonempty s :
  s <> [] -> parse_response_options (Some s) = Some (trimmed_nonempty_tokens s).
Proof.
  intros Hs. unfold parse_response_options, trimmed_nonempty_tokens.
  destruct s; [done|]. simpl truthy_opt_str. cbv iota.
  by rewrite options_loop.
Qed.

(** X11.  Round trip: a non-empty list of labels, each non-empty, free of
    commas and without white space at its ends, joined with commas,
    parses back to exactly that list. *)
Theorem parse_join_roundtrip l :
  l <> [] ->
  Forall (fun label => label <> [] /\ (COMMA ∉ label) /\ trimmed label) l ->
  parse_response_options (Some (join COMMA l)) = Some l.
Proof.
  intros Hne H.
  assert (Hj : join COMMA l <> []).
  { destruct l as [|x l]; [done|]. inversion H as [|? ? [Hx _] _]; subst.
    destruct l; simpl; [done|]. by destruct x. }
  rewrite parse_nonempty by done. f_equal.
  unfold trimmed_nonempty_tokens. rewrite split_join.
  - clear Hne Hj. induction H as [|x l (Hx & _ & Ht) _ IH]; [done|].
    rewrite fmap_cons, filter_cons, strip_fixed by done.
    rewrite decide_True by done. by rewrite IH.
  - done.
  - eapply Forall_impl; [exact H|]. by intros x (_ & Hc & _).
Qed.

Lemma parse_join_roundtrip_witness :
  parse_response_options
    (Some (join COMMA [lit "Strongly disagree"; lit "Neutral"; lit "Agree"]))
  = Some [lit "Strongly disagree"; lit "Neutral"; lit "Agree"].
Proof.
  apply parse_join_roundtrip; [discriminate|].
  repeat constructor; try discriminate; try compute_done;
    intros c [= <-]; reflexivity.
Defined.

(** X12.  Every parsed label has no white space at either end:
    stripping it again changes nothing. *)
Theorem labels_are_trimmed s l :
  parse_response_options (Some s) = Some l ->
  Forall (fun label => trimmed label /\ strip label = label) l.
Proof.
  intros H. destruct s as [|c s]; [done|].
  rewrite parse_nonempty in H by done. injection H as <-.
  unfold trimmed_nonempty_tokens. apply Forall_forall. intros label Hl.
  apply list_elem_of_filter in Hl as [_ Hl].
  apply list_elem_of_fmap in Hl as [piece [-> _]].
  split; [apply strip_trimmed|]. apply strip_fixed, strip_trimmed.
Qed.

Lemma labels_are_trimmed_witness :
  Forall (fun label => trimmed label /\ strip label = label)
    [lit "Never"; lit "Some times"; lit "Always"].
Proof.
  apply (labels_are_trimmed (lit "  Never , Some times,,Always ")).
  vm_compute. reflexivity.
Defined.

(** X13.  There are at most as many labels as commas plus one, so a
    non-empty option string with fewer than two commas never gives the
    more than two labels line 113 asks for: [cli] exits with status 1
    without the delegate. *)
Theorem fewer_than_two_commas_rejected a s w :
  arg_response_options a = Some s ->
  s <> [] ->
  (occurrences COMMA s < 2)%nat ->
  exists l,
    parse_response_options (Some s) = Some l
    /\ (length l <= S (occurrences COMMA s))%nat
    /\ exists line,
         forall d, cli d (CommandRun a) w = (SysExit 1, with_stderr_line w line).
Proof.
  intros Ha Hs Hc. exists (trimmed_nonempty_tokens s).
  assert (Hlen : (length (trimmed_nonempty_tokens s)
                  <= S (occurrences COMMA s))%nat).
  { unfold trimmed_nonempty_tokens.
    etransitivity; [apply length_filter|].
    by rewrite length_fmap, length_split. }
  split; [by apply parse_nonempty|]. split; [done|].
  apply failure_exits. rewrite Ha, parse_nonempty by done.
  apply too_few_first_failure. simpl. apply Z.leb_le. lia.
Qed.

Lemma fewer_than_two_commas_rejected_witness :
  exists l,
    parse_response_options (Some (lit "Yes,No and maybe")) = Some l
    /\ (length l <= S (occurrences COMMA (lit "Yes,No and maybe")))%nat
    /\ exists line,
         cli quiet_delegate
           (CommandRun (run_with_options (lit "Yes,No and maybe")))
           sample_world
         = (SysExit 1, with_stderr_line sample_world line).
Proof.
  destruct (fewer_than_two_commas_rejected
              (run_with_options (lit "Yes,No and maybe"))
              (lit "Yes,No and maybe") sample_world eq_refl)
    as (l & Hl & Hlen & line & Hline).
  - discriminate.
  - vm_compute. lia.
  - exists l. split; [exact Hl|]. split; [exact Hlen|].
    exists line. apply Hline.
Defined.

(** X14.  A non-empty option string made of commas and white space only
    parses to the empty list, not to [None]: unlike the empty string it
    counts as supplied and fails the check of line 113. *)
Theorem separators_only_parse_to_nothing s :
  s <> [] ->
  Forall (fun c => c = COMMA \/ py_isspace c = true) s ->
  parse_response_options (Some s) = Some []
  /\ too_few_options (parse_response_options (Some s)) = true.
Proof.
  intros Hs H.
  assert (E : trimmed_nonempty_tokens s = []).
  { unfold trimmed_nonempty_tokens.
    destruct (filter _ _) as [|label rest] eqn:E; [done|]. exfalso.
    assert (Hin : label ∈ filter (fun t : pystr => t <> [])
                    (strip <$> split COMMA s)) by (rewrite E; left).
    apply list_elem_of_filter in Hin as [Hne Hin].
    apply list_elem_of_fmap in Hin as [piece [-> Hp]].
    apply Hne, strip_all_space, forallb_forall. intros c Hc.
    rewrite <- list_elem_of_In in Hc.
    pose proof (proj1 (Forall_forall _ _) (split_no_sep COMMA s)) as Hsep.
    pose proof (proj1 (Forall_forall _ _) H) as Hall.
    assert (Hs' : c ∈ s).
    { rewrite <- (join_split COMMA s). by apply (elem_join _ _ piece). }
    destruct (Hall c Hs') as [->|Hsp]; [|done].
    by apply Hsep in Hp. }
  rewrite parse_nonempty by done. by rewrite E.
Qed.

Lemma separators_only_parse_to_nothing_witness :
  parse_response_options (Some (lit " , ,, ")) = Some []
  /\ too_few_options (parse_response_options (Some (lit " , ,, "))) = true.
Proof.
  apply separators_only_parse_to_nothing; [discriminate|].
  repeat constructor; (by left) || (by right).
Defined.

(** ** Further properties of the [questions] subcommand *)

(** X1.  When the questions file does not exist and [--add] is absent or
    empty (so with [--list], with [--delete] for any number, zero
    included, and with [--add] of the empty string), [cli] prints that
    the file was not found, exits with status 1 and creates nothing. *)
Theorem missing_questions_file_exits d a w :
  fs w !! arg_file a = None ->
  truthy_opt_str (arg_add a) = false ->
  cli d (CommandQuestions a) w =
  (SysExit 1,
   with_stderr_line w (lit "Questions file not found: " ++ arg_file a)).
Proof.
  intros Hfs Hadd. cbn [cli]. unfold cli_questions, bind, path_exists.
  rewrite bool_decide_eq_false_2 by (rewrite Hfs; by intros [? ?]).
  cbn [negb]. by rewrite Hadd.
Qed.

Lemma missing_questions_file_exits_witness :
  cli quiet_delegate (CommandQuestions (questions_delete (lit "q.txt") 0))
    sample_world
  = (SysExit 1,
     with_stderr_line sample_world
       (lit "Questions file not found: " ++ lit "q.txt"))
  /\ cli quiet_delegate (CommandQuestions (questions_list (lit "q.txt")))
       empty_world
     = (SysExit 1,
        with_stderr_line empty_world
          (lit "Questions file not found: " ++ lit "q.txt")).
Proof.
  split.
  - apply (missing_questions_file_exits quiet_delegate
             (questions_delete (lit "q.txt") 0) sample_world);
      vm_compute; reflexivity.
  - apply (missing_questions_file_exits quiet_delegate
             (questions_list (lit "q.txt")) empty_world);
      vm_compute; reflexivity.
Defined.

(** X2.  For an existing questions file, [--delete i] with [i] negative
    or above the number of lines reports exactly that number as an
    invalid line number, exits with status 1 and changes nothing else. *)
Theorem delete_invalid_reports_number d file c w i :
  fs w !! file = Some (File c) ->
  i < 0 \/ Z.of_nat (length (lines c)) < i ->
  cli d (CommandQuestions (questions_delete file i)) w =
  (SysExit 1, with_stderr_line w (lit "Invalid line number: " ++ str_int i)).
Proof.
  intros Hfs Hi. cbn [cli]. rewrite cli_questions_delete_eq by eauto.
  replace (i =? 0) with false by (symmetry; apply Z.eqb_neq; lia).
  apply (delete_question_invalid file c); [done|lia].
Qed.

Lemma delete_invalid_reports_number_witness :
  cli quiet_delegate
    (CommandQuestions (questions_delete (lit "questions.txt") 3)) sample_world
  = (SysExit 1,
     with_stderr_line sample_world (lit "Invalid line number: " ++ str_int 3)).
Proof.
  apply (delete_invalid_reports_number quiet_delegate (lit "questions.txt")
           two_questions sample_world 3).
  - vm_compute. reflexivity.
  - right. vm_compute. reflexivity.
Defined.

Lemma lit_cons a s : lit (String a s) = N_of_ascii a :: lit s.
Proof. reflexivity. Qed.

Lemma uint_no_newline d : NEWLINE ∉ lit (NilEmpty.string_of_uint d).
Proof.
  induction d; cbn [NilEmpty.string_of_uint];
    [apply not_elem_of_nil|..];
    rewrite lit_cons; apply not_elem_of_cons; (split; [done|assumption]).
Qed.

Lemma str_int_no_newline i : NEWLINE ∉ str_int i.
Proof.
  unfold str_int.
  assert (H : forall d, NEWLINE ∉ lit (NilZero.string_of_uint d)).
  { intros d. pose proof (uint_no_newline d) as H.
    destruct d; try exact H.
    cbn [NilZero.string_of_uint]. rewrite lit_cons.
    apply not_elem_of_cons. split; [done|apply not_elem_of_nil]. }
  destruct (Z.to_int i) as [d|d]; cbn [NilZero.string_of_int]; [apply H|].
  rewrite lit_cons. apply not_elem_of_cons. split; [done|apply H].
Qed.

Lemma listing_unlines start qs : listing start qs = unlines (numbered start qs).
Proof.
  revert start. induction qs as [|q qs IH]; intros start; [done|].
  cbn [listing]. unfold numbered. cbn [enumerate]. rewrite fmap_cons.
  rewrite unlines_cons. cbn [fst snd]. rewrite <- !app_assoc.
  do 2 f_equal. cbn [app]. do 2 f_equal. apply IH.
Qed.

Lemma numbered_no_newline start qs :
  Forall (fun q => NEWLINE ∉ q) qs ->
  Forall (fun line => NEWLINE ∉ line) (numbered start qs).
Proof.
  intros H. revert start. induction H as [|q qs Hq _ IH]; intros start.
  - constructor.
  - unfold numbered. cbn [enumerate]. rewrite fmap_cons. constructor.
    + cbn [fst snd]. rewrite !not_elem_of_app. split; [|split; [|done]].
      * apply str_int_no_newline.
      * compute_done.
    + apply IH.
Qed.

Lemma numbered_lookup start qs k q :
  qs !! k = Some q ->
  numbered start qs !! k = Some (str_int (start + Z.of_nat k) ++ lit ". " ++ q).
Proof.
  revert start k. induction qs as [|x qs IH]; intros start k H; [done|].
  unfold numbered. cbn [enumerate]. rewrite fmap_cons.
  destruct k as [|k].
  - injection H as ->. cbn [lookup list_lookup fst snd Z.of_nat].
    by rewrite Z.add_0_r.
  - change (numbered (start + 1) qs !! k
            = Some (str_int (start + Z.of_nat (S k)) ++ lit ". " ++ q)).
    rewrite (IH (start + 1) k) by exact H.
    do 3 f_equal. lia.
Qed.

(** X3.  For an existing questions file, [--list] returns normally,
    leaves the file system and standard error as they were, and adds to
    standard output exactly one line per question, the line at position
    k (from 0) being the number k + 1, a dot, a blank and the question. *)
Theorem list_prints_numbered_questions d file c w :
  fs w !! file = Some (File c) ->
  exists block,
    cli d (CommandQuestions (questions_list file)) w =
    (Return tt, World (fs w) (stdout w ++ block) (stderr w))
    /\ length (lines block) = length (lines c)
    /\ forall k q,
         lines c !! k = Some q ->
         lines block !! k
         = Some (str_int (Z.of_nat k + 1) ++ lit ". " ++ q).
Proof.
  intros Hfs. exists (listing 1 (lines c)).
  split; [by apply cli_questions_list_eq|].
  rewrite listing_unlines.
  rewrite lines_unlines by apply numbered_no_newline, lines_no_newline.
  split.
  - unfold numbered. rewrite length_fmap.
    generalize 1. induction (lines c) as [|q qs IH]; intros start; [done|].
    cbn [enumerate length]. by rewrite IH.
  - intros k q Hk. rewrite (numbered_lookup 1 _ k q Hk).
    do 3 f_equal. lia.
Qed.

Lemma list_prints_numbered_questions_witness :
  exists block,
    cli quiet_delegate (CommandQuestions (questions_list (lit "questions.txt")))
      sample_world
    = (Return tt,
       World (fs sample_world) (stdout sample_world ++ block)
         (stderr sample_world))
    /\ length (lines block) = length (lines two_questions)
    /\ lines block !! 1%nat = Some (str_int 2 ++ lit ". " ++ lit "Q2").
Proof.
  destruct (list_prints_numbered_questions quiet_delegate
              (lit "questions.txt") two_questions sample_world)
    as (block & Hrun & Hlen & Hk).
  - vm_compute. reflexivity.
  - exists block. split; [exact Hrun|]. split; [exact Hlen|].
    apply (Hk 1%nat (lit "Q2")). vm_compute. reflexivity.
Defined.

(** *** Text of terminated lines *)

Lemma unlines_app l1 l2 : unlines (l1 ++ l2) = unlines l1 ++ unlines l2.
Proof.
  induction l1 as [|q l1 IH]; [done|].
  rewrite <- app_comm_cons, !unlines_cons, IH. by rewrite <- app_assoc.
Qed.

Lemma terminated_unlines l : terminated (unlines l).
Proof.
  destruct l as [|q l _] using rev_ind; [by left|].
  right. rewrite unlines_app, unlines_cons.
  change (unlines []) with (@nil N).
  by rewrite !last_app.
Qed.

(** Reading a text of terminated lines and writing the lines out gives
    the text back. *)
Lemma unlines_lines c : terminated c -> unlines (lines c) = c.
Proof.
  induction c as [|x c IH]; intros Hc; [done|].
  destruct Hc as [Hc|Hc]; [done|]. simpl.
  destruct (N.eqb_spec x NEWLINE) as [->|Hne].
  - rewrite unlines_cons. simpl. f_equal. apply IH.
    destruct c as [|y c]; [by left|]. right. exact Hc.
  - destruct c as [|y c].
    + simpl in Hc. congruence.
    + assert (Ht : terminated (y :: c)) by (right; exact Hc).
      specialize (IH Ht).
      destruct (lines (y :: c)) as [|line rest] eqn:E.
      * by apply lines_nil in E.
      * rewrite unlines_cons in *. simpl. by rewrite IH.
Qed.

Lemma cli_questions_add_existing file s c w :
  fs w !! file = Some (File c) ->
  truthy_str s = true ->
  cli_questions (questions_add file s) w =
  (Return tt,
   World (<[file := File (c ++ strip s ++ [NEWLINE])]> (fs w))
     (stdout w ++ lit "Added question: " ++ strip s ++ [NEWLINE]) (stderr w)).
Proof.
  intros Hfs Hs. unfold cli_questions, bind, path_exists.
  cbn [arg_file questions_add arg_list arg_add truthy_opt_str default].
  rewrite Hs. rewrite bool_decide_eq_true_2 by eauto. cbn [negb ret].
  unfold add_question, bind, open_append, f_write, print. rewrite Hfs.
  cbn [fs stdout stderr]. by rewrite Hfs.
Qed.

(** X6.  Round trip: on a questions file of terminated lines, adding a
    question (non-empty once trimmed, no newline inside) and then
    deleting the last line number, the old number of lines plus one,
    leaves every file exactly as it was before the two commands. *)
Theorem add_then_delete_restores d file s c w :
  strip s <> [] ->
  NEWLINE ∉ strip s ->
  fs w !! file = Some (File c) ->
  terminated c ->
  exists w1 w2,
    cli d (CommandQuestions (questions_add file s)) w = (Return tt, w1)
    /\ cli d (CommandQuestions
                (questions_delete file (Z.of_nat (length (lines c)) + 1))) w1
       = (Return tt, w2)
    /\ fs w2 = fs w.
Proof.
  intros Hne Hnl Hfs Ht.
  assert (Hs : truthy_str s = true).
  { destruct s; [by rewrite strip_nil in Hne|done]. }
  set (c1 := c ++ strip s ++ [NEWLINE]).
  assert (Hlines : lines c1 = lines c ++ [strip s]).
  { unfold c1. rewrite lines_app_terminated by done.
    by rewrite (lines_one_line (strip s) []). }
  destruct (delete_question_valid file c1
              (Z.of_nat (length (lines c)) + 1)
              (World (<[file := File c1]> (fs w))
                 (stdout w ++ lit "Added question: " ++ strip s ++ [NEWLINE])
                 (stderr w)))
    as [removed [_ Hdel]].
  { apply lookup_insert_eq. }
  { rewrite Hlines, length_app. simpl. lia. }
  eexists _, _. split; [|split].
  - cbn [cli]. by apply cli_questions_add_existing.
  - cbn [cli]. rewrite cli_questions_delete_eq
      by (cbn [fs]; rewrite lookup_insert_eq; eauto).
    replace (Z.of_nat (length (lines c)) + 1 =? 0) with false
      by (symmetry; apply Z.eqb_neq; lia).
    exact Hdel.
  - cbn [fs]. rewrite insert_insert_eq, Hlines.
    replace (Z.to_nat (Z.of_nat (length (lines c)) + 1 - 1))
      with (length (lines c)) by lia.
    rewrite delete_take_drop, take_app_length.
    rewrite drop_ge by (rewrite length_app; simpl; lia).
    rewrite app_nil_r, unlines_lines by done.
    by apply insert_id.
Qed.

Lemma add_then_delete_restores_witness :
  exists w1 w2,
    cli quiet_delegate
      (CommandQuestions (questions_add (lit "questions.txt") (lit " Q3 ")))
      sample_world = (Return tt, w1)
    /\ cli quiet_delegate
         (CommandQuestions
            (questions_delete (lit "questions.txt")
               (Z.of_nat (length (lines two_questions)) + 1))) w1
       = (Return tt, w2)
    /\ fs w2 = fs sample_world.
Proof.
  apply (add_then_delete_restores quiet_delegate (lit "questions.txt")
           (lit " Q3 ") two_questions sample_world).
  - vm_compute. discriminate.
  - compute_done.
  - vm_compute. reflexivity.
  - right. vm_compute. reflexivity.
Defined.



(** X18.  A valid [--delete] always leaves a text of terminated lines,
    also when the last line of the old file had no newline: the new text
    is its own lines written out one by one. *)
Theorem delete_leaves_terminated_text d file c w i :
  fs w !! file = Some (File c) ->
  1 <= i <= Z.of_nat (length (lines c)) ->
  exists c' w',
    cli d (CommandQuestions (questions_delete file i)) w = (Return tt, w')
    /\ fs w' !! file = Some (File c')
    /\ terminated c'
    /\ unlines (lines c') = c'.
Proof.
  intros Hfs Hi.
  destruct (delete_question_valid file c i w Hfs Hi) as [removed [_ Hdel]].
  eexists _, _. split; [|split; [|split]].
  - cbn [cli]. rewrite cli_questions_delete_eq by eauto.
    replace (i =? 0) with false by (symmetry; apply Z.eqb_neq; lia).
    exact Hdel.
  - cbn [fs]. apply lookup_insert_eq.
  - apply terminated_unlines.
  - apply unlines_lines, terminated_unlines.
Qed.

Lemma delete_leaves_terminated_text_witness :
  exists c' w',
    cli quiet_delegate
      (CommandQuestions (questions_delete (lit "q.txt") 1))
      (World {[ lit "q.txt" := File (lit "Q1" ++ [NEWLINE] ++ lit "Q2") ]} [] [])
    = (Return tt, w')
    /\ fs w' !! lit "q.txt" = Some (File c')
    /\ terminated c'
    /\ unlines (lines c') = c'.
Proof.
  apply (delete_leaves_terminated_text quiet_delegate (lit "q.txt")
           (lit "Q1" ++ [NEWLINE] ++ lit "Q2")).
  - vm_compute. reflexivity.
  - vm_compute. split; discriminate.
Defined.

(** *** What the [questions] subcommand leaves alone *)

Lemma frames_bind {A B} file (m : M A) (k : A -> M B) :
  frames file m -> (forall x, frames file (k x)) -> frames file (bind m k).
Proof.
  intros Hm Hk w p Hp. unfold bind. specialize (Hm w p Hp).
  destruct (m w) as [[x|e|code] w1]; simpl in *; [|done|done].
  rewrite <- Hm. by apply Hk.
Qed.

Lemma frames_pure {A} file (m : M A) :
  (forall w, fs (snd (m w)) = fs w) -> frames file m.
Proof. intros H w p _. by rewrite H. Qed.

Lemma frames_open_append file : frames file (open_append file).
Proof.
  intros w p Hp. unfold open_append.
  destruct (fs w !! file) as [[|]|]; try done.
  destruct (truthy_str file && parent_ok (fs w) file); [|done].
  simpl. by rewrite lookup_insert_ne.
Qed.

Lemma frames_open_write file : frames file (open_write file).
Proof.
  intros w p Hp. unfold open_write.
  destruct (fs w !! file) as [[|]|]; try done.
  - simpl. by rewrite lookup_insert_ne.
  - destruct (truthy_str file && parent_ok (fs w) file); [|done].
    simpl. by rewrite lookup_insert_ne.
Qed.

Lemma frames_f_write file data : frames file (f_write file data).
Proof.
  intros w p Hp. unfold f_write.
  destruct (fs w !! file) as [[|]|]; try done.
  simpl. by rewrite lookup_insert_ne.
Qed.

Lemma frames_load_questions file p : frames file (load_questions p).
Proof.
  apply frames_pure. intros w. unfold load_questions.
  by destruct (fs w !! p) as [[|]|].
Qed.

Lemma frames_for_each {A} file (l : list A) body :
  (forall x, frames file (body x)) -> frames file (for_each l body).
Proof.
  intros H. induction l as [|x l IH]; [by apply frames_pure|].
  cbn [for_each]. apply frames_bind; [apply H|]. by intros _.
Qed.

Lemma frames_cli_questions a : frames (arg_file a) (cli_questions a).
Proof.
  unfold cli_questions, list_questions, add_question, delete_question,
    no_action.
  repeat first
    [ apply frames_bind; [|intros ?]
    | apply frames_open_append
    | apply frames_open_write
    | apply frames_f_write
    | apply frames_load_questions
    | apply frames_for_each; intros ?
    | by apply frames_pure
    | match goal with
      | |- frames _ (if ?b then _ else _) => destruct b
      | |- frames _ (match ?o with Some _ => _ | None => _ end) => destruct o
      | |- frames _ (let (_, _) := ?x in _) => destruct x
      end ].
Qed.

(** X4.  Whatever its arguments and its outcome, the [questions]
    subcommand leaves every path other than [--file] as it was: no
    other file is created, changed or removed. *)
Theorem questions_touch_only_their_file d a w p :
  p <> arg_file a ->
  fs (snd (cli d (CommandQuestions a) w)) !! p = fs w !! p.
Proof. intros Hp. by apply (frames_cli_questions a w p). Qed.

Lemma questions_touch_only_their_file_witness :
  fs (snd (cli quiet_delegate
             (CommandQuestions (questions_delete (lit "questions.txt") 1))
             sample_world)) !! lit "persona.json"
  = fs sample_world !! lit "persona.json".
Proof.
  apply (questions_touch_only_their_file quiet_delegate
           (questions_delete (lit "questions.txt") 1) sample_world
           (lit "persona.json")).
  vm_compute. discriminate.
Defined.

(** *** Leaving through [sys.exit] *)

Lemma never_exits_bind {A B} (m : M A) (k : A -> M B) :
  never_exits m -> (forall x, never_exits (k x)) -> never_exits (bind m k).
Proof.
  intros Hm Hk w code w' H. unfold bind in H.
  destruct (m w) as [[x|e|c] w1] eqn:E.
  - by apply (Hk x w1 code w').
  - done.
  - by apply (Hm w c w1).
Qed.

Lemma never_exits_result {A} (m : M A) :
  (forall w, match fst (m w) with SysExit _ => False | _ => True end) ->
  never_exits m.
Proof.
  intros H w code w' E. specialize (H w). by rewrite E in H.
Qed.

Lemma never_exits_open_append p : never_exits (open_append p).
Proof.
  apply never_exits_result. intros w. unfold open_append.
  destruct (fs w !! p) as [[|]|]; try done.
  by destruct (truthy_str p && parent_ok (fs w) p).
Qed.

Lemma never_exits_open_write p : never_exits (open_write p).
Proof.
  apply never_exits_result. intros w. unfold open_write.
  destruct (fs w !! p) as [[|]|]; try done.
  by destruct (truthy_str p && parent_ok (fs w) p).
Qed.

Lemma never_exits_f_write p data : never_exits (f_write p data).
Proof.
  apply never_exits_result. intros w. unfold f_write.
  by destruct (fs w !! p) as [[|]|].
Qed.

Lemma never_exits_load_questions p : never_exits (load_questions p).
Proof.
  apply never_exits_result. intros w. unfold load_questions.
  by destruct (fs w !! p) as [[|]|].
Qed.

Lemma never_exits_for_each {A} (l : list A) body :
  (forall x, never_exits (body x)) -> never_exits (for_each l body).
Proof.
  intros H. induction l as [|x l IH]; [by apply never_exits_result|].
  cbn [for_each]. apply never_exits_bind; [apply H|]. by intros _.
Qed.

Ltac never_exits :=
  repeat first
    [ apply never_exits_bind; [|intros ?]
    | apply never_exits_open_append
    | apply never_exits_open_write
    | apply never_exits_f_write
    | apply never_exits_load_questions
    | apply never_exits_for_each; intros ?
    | by apply never_exits_result ].







(** X19.  [--add] with a non-empty argument on an existing questions
    file only appends: the old text, whatever it is, stays as the
    beginning of the new text, and what follows it is the trimmed
    argument and one newline. *)
Theorem add_only_appends d file s c w :
  fs w !! file = Some (File c) ->
  s <> [] ->
  exists w',
    cli d (CommandQuestions (questions_add file s)) w = (Return tt, w')
    /\ fs w' !! file = Some (File (c ++ strip s ++ [NEWLINE]))
    /\ stdout w' = stdout w ++ lit "Added question: " ++ strip s ++ [NEWLINE]
    /\ stderr w' = stderr w.
Proof.
  intros Hfs Hs. eexists. split.
  - cbn [cli]. apply (cli_questions_add_existing file s c); [done|].
    by destruct s.
  - cbn [fs stdout stderr]. by rewrite lookup_insert_eq.
Qed.

Lemma add_only_appends_witness :
  exists w',
    cli quiet_delegate
      (CommandQuestions (questions_add (lit "q.txt") (lit "Q2 ")))
      (World {[ lit "q.txt" := File (lit "Q1") ]} [] []) = (Return tt, w')
    /\ fs w' !! lit "q.txt" = Some (File (lit "Q1" ++ strip (lit "Q2 ") ++ [NEWLINE]))
    /\ stdout w' = [] ++ lit "Added question: " ++ strip (lit "Q2 ") ++ [NEWLINE]
    /\ stderr w' = [].
Proof.
  apply (add_only_appends quiet_delegate (lit "q.txt") (lit "Q2 ") (lit "Q1")
           (World {[ lit "q.txt" := File (lit "Q1") ]} [] [])).
  - vm_compute. reflexivity.
  - discriminate.
Defined.
